(** * DevDraft AI (consensus): prompt generator, side-panel state and the
      requirements reconciliation protocol

    The development follows the repository file by file:

    - [PromptGenerator] embeds [utils/promptGenerator.ts] (and its JavaScript
      twin [landing/src/utils/promptGenerator.js], which has the same body);
    - [SidePanel] embeds the state of the React component of
      [extension/src/sidepanel.tsx] and its handlers ([ws.onmessage],
      [startCapture], [stopCapture]); [Dashboard] does the same for
      [landing/src/pages/Dashboard.jsx];
    - [Reconciliation] models the Reconciliation Engine, which lives in the
      Python backend and is described by the design document only.

    JavaScript strings are modelled by [string]: the code only concatenates,
    joins and slices them, so a string is a plain sequence of code units. *)

From Stdlib Require Import String Ascii List Arith Lia Bool Sorted.
From Stdlib Require Import DecimalString DecimalNat.
Import ListNotations.

Local Open Scope list_scope.
Local Open Scope string_scope.

(** The line feed of the template literals. *)
Definition nl : string := String (ascii_of_nat 10) EmptyString.

(** [Array.prototype.join] on an array of strings. *)
Definition join (sep : string) (l : list string) : string := String.concat sep l.

(* ================================================================== *)
(** ** Wire data: [Requirement] and [ProjectSpec] *)
(* ================================================================== *)

Inductive Status : Type := active | superseded.

Definition Status_eqb (a b : Status) : bool :=
  match a, b with
  | active, active => true
  | superseded, superseded => true
  | _, _ => false
  end.

Record Requirement : Type := mkRequirement {
  id : nat;
  description : string;
  status : Status;
  supersedes : option nat
}.

(** [r => r.status === 'active'] and [r => r.status === 'superseded']. *)
Definition is_active (r : Requirement) : bool := Status_eqb (status r) active.
Definition is_superseded (r : Requirement) : bool := Status_eqb (status r) superseded.

Record ProjectSpec : Type := mkProjectSpec {
  project_summary : string;
  requirements : list Requirement;
  tech_stack : list string;
  ui_preferences : option (list string);
  raw_transcript_snapshot : option string
}.

Inductive AgenticTool : Type := lovable | bolt | replit | v0.

(** Truthiness of an optional string: [undefined] and [''] are falsy. *)
Definition truthy (o : option string) : option string :=
  match o with
  | Some EmptyString => None
  | Some t => Some t
  | None => None
  end.

(* ================================================================== *)
(** ** The browser as seen by the code

    The asynchronous and effectful functions run in a small monad over the
    part of the browser they touch.  A computation either returns a value
    (a resolved promise) or throws (a rejected promise). *)
(* ================================================================== *)

Record World : Type := mkWorld {
  clipboard_fault : option string;      (* [Some e]: [writeText] rejects with [e] *)
  clipboard : option string;            (* last text written to the clipboard *)
  opened : list (string * string);      (* [window.open(url, target)] calls *)
  console : list (string * string);     (* [console.error(label, error)] calls *)
  now_iso : string;                     (* [new Date().toISOString()] *)
  downloads : list (string * string)    (* file name and content of clicked anchors *)
}.

Inductive Outcome (A : Type) : Type :=
| Returned (a : A)
| Thrown (error : string).
Arguments Returned {A} a.
Arguments Thrown {A} error.

Definition Js (A : Type) : Type := World -> Outcome A * World.

Definition ret {A} (a : A) : Js A := fun w => (Returned a, w).

Definition bind {A B} (m : Js A) (k : A -> Js B) : Js B :=
  fun w =>
    match m w with
    | (Returned a, w') => k a w'
    | (Thrown e, w') => (Thrown e, w')
    end.

Definition try_catch {A} (body : Js A) (handler : string -> Js A) : Js A :=
  fun w =>
    match body w with
    | (Returned a, w') => (Returned a, w')
    | (Thrown e, w') => handler e w'
    end.

Notation "x <- m ;; k" := (bind m (fun x => k))
  (at level 61, m at next level, right associativity).
Notation "m ;;; k" := (bind m (fun _ => k))
  (at level 61, right associativity).

(** [navigator.clipboard.writeText]. *)
Definition clipboard_writeText (text : string) : Js unit :=
  fun w =>
    match clipboard_fault w with
    | Some e => (Thrown e, w)
    | None =>
        (Returned tt,
         mkWorld (clipboard_fault w) (Some text) (opened w) (console w)
                 (now_iso w) (downloads w))
    end.

(** [window.open]. *)
Definition window_open (url target : string) : Js unit :=
  fun w =>
    (Returned tt,
     mkWorld (clipboard_fault w) (clipboard w) (opened w ++ [(url, target)])%list
             (console w) (now_iso w) (downloads w)).

(** [console.error]. *)
Definition console_error (label error : string) : Js unit :=
  fun w =>
    (Returned tt,
     mkWorld (clipboard_fault w) (clipboard w) (opened w)
             (console w ++ [(label, error)])%list (now_iso w) (downloads w)).

(** [new Date().toISOString()]. *)
Definition date_toISOString : Js string := fun w => (Returned (now_iso w), w).

(** Creating an anchor with [href] a blob of [content] and clicking it. *)
Definition click_download (name content : string) : Js unit :=
  fun w =>
    (Returned tt,
     mkWorld (clipboard_fault w) (clipboard w) (opened w) (console w)
             (now_iso w) (downloads w ++ [(name, content)])%list).

(** [s.split('T')[0]]: the text before the first [T]. *)
Fixpoint before_T (s : string) : string :=
  match s with
  | EmptyString => EmptyString
  | String c rest =>
      if Ascii.eqb c "T"%char then EmptyString else String c (before_T rest)
  end.

(* ================================================================== *)
(** ** utils/promptGenerator *)
(* ================================================================== *)

Module PromptGenerator.

Definition TOOL_URLS (tool : AgenticTool) : string :=
  match tool with
  | lovable => "https://lovable.dev"
  | bolt => "https://bolt.new"
  | replit => "https://replit.com/agent"
  | v0 => "https://v0.dev"
  end.

Definition TOOL_NAMES (tool : AgenticTool) : string :=
  match tool with
  | lovable => "Lovable"
  | bolt => "Bolt.new"
  | replit => "Replit Agent"
  | v0 => "v0 by Vercel"
  end.

(** [r => `- ${r.description}`] and [p => `- ${p}`]. *)
Definition bullet (d : string) : string := "- " ++ d.

(** [r => `- ~~${r.description}~~`]. *)
Definition struck (d : string) : string := "- ~~" ++ d ++ "~~".

Definition fallback_tech : string :=
  "Use modern best practices - suggest appropriate technologies".

(** The conditional expression inside the template literal. *)
Definition tech_line (ts : list string) : string :=
  if (0 <? List.length ts)%nat then join ", " ts else fallback_tech.

Definition generateSuperPrompt (spec : ProjectSpec) : string :=
  let activeRequirements := filter is_active (requirements spec) in
  let prompt :=
    "Build a web application with the following specifications:" ++ nl
    ++ nl
    ++ "## Project Summary" ++ nl
    ++ project_summary spec ++ nl
    ++ nl
    ++ "## Tech Stack" ++ nl
    ++ tech_line (tech_stack spec) ++ nl
    ++ nl
    ++ "## Requirements" ++ nl
    ++ join nl (map (fun r => bullet (description r)) activeRequirements) ++ nl in
  let prompt :=
    match ui_preferences spec with
    | Some ps =>
        if (0 <? List.length ps)%nat then
          prompt ++ nl ++ "## UI/UX Preferences" ++ nl
          ++ join nl (map bullet ps) ++ nl
        else prompt
    | None => prompt
    end in
  let prompt :=
    prompt ++ nl
    ++ "Please start by scaffolding the main components and implementing the core features." in
  let prompt :=
    match truthy (raw_transcript_snapshot spec) with
    | Some t =>
        prompt ++ nl ++ nl
        ++ "## Raw Transcript Reference" ++ nl
        ++ "<details>" ++ nl
        ++ "<summary>Full conversation transcript</summary>" ++ nl
        ++ nl
        ++ t ++ nl
        ++ nl
        ++ "</details>"
    | None => prompt
    end in
  prompt.

Definition generateDetailedPrompt (spec : ProjectSpec) : string :=
  let basicPrompt := generateSuperPrompt spec in
  let supersededRequirements := filter is_superseded (requirements spec) in
  let detailedPrompt := basicPrompt in
  let detailedPrompt :=
    if (0 <? List.length supersededRequirements)%nat then
      detailedPrompt ++ nl ++ nl
      ++ "## Historical Context (Changed Requirements)" ++ nl
      ++ "The following requirements were initially discussed but later changed:" ++ nl
      ++ join nl (map (fun r => struck (description r)) supersededRequirements) ++ nl
    else detailedPrompt in
  let detailedPrompt :=
    match truthy (raw_transcript_snapshot spec) with
    | Some t =>
        detailedPrompt ++ nl
        ++ "## Raw Transcript Reference" ++ nl
        ++ "<details>" ++ nl
        ++ "<summary>Full conversation transcript</summary>" ++ nl
        ++ nl
        ++ t ++ nl
        ++ nl
        ++ "</details>"
    | None => detailedPrompt
    end in
  detailedPrompt.

Record CopyResult : Type := mkCopyResult {
  success : bool;
  message : string
}.

Definition copyToClipboardAndRedirect (prompt : string) (tool : AgenticTool)
  : Js CopyResult :=
  try_catch
    (clipboard_writeText prompt ;;;
     let url := TOOL_URLS tool in
     window_open url "_blank" ;;;
     ret (mkCopyResult true ("Prompt copied! Opening " ++ TOOL_NAMES tool ++ "...")))
    (fun error =>
     console_error "Failed to copy to clipboard:" error ;;;
     ret (mkCopyResult false "Failed to copy to clipboard. Please try again.")).

Definition downloadPromptAsFile (spec : ProjectSpec) : Js unit :=
  let prompt := generateDetailedPrompt spec in
  iso <- date_toISOString ;;
  click_download ("devdraft-spec-" ++ before_T iso ++ ".md") prompt.

(** The specification of the README's API schema, with a short
    transcript. *)
Definition readme_spec : ProjectSpec :=
  mkProjectSpec
    "A dashboard for crypto tracking"
    [ mkRequirement 1 "Dark mode UI" active None;
      mkRequirement 2 "Use sidebar navigation" active (Some 3);
      mkRequirement 3 "Use navbar navigation" superseded None ]
    ["React"; "Tailwind"; "Lucide Icons"]
    (Some ["Dark theme"; "Minimal design"])
    (Some " we need a dashboard for crypto tracking").

(** *** Vocabulary for the statements about the prompts *)

(** The requirements a prompt lists: the code's [activeRequirements]. *)
Definition listed (spec : ProjectSpec) : list Requirement :=
  filter is_active (requirements spec).

(** The text of a prompt after its Requirements section. *)
Definition after_requirements (spec : ProjectSpec) : string :=
  match ui_preferences spec with
  | Some ps =>
      if (0 <? List.length ps)%nat then
        nl ++ "## UI/UX Preferences" ++ nl ++ join nl (map bullet ps) ++ nl
      else ""
  | None => ""
  end
  ++ nl
  ++ "Please start by scaffolding the main components and implementing the core features."
  ++ match truthy (raw_transcript_snapshot spec) with
     | Some t =>
         nl ++ nl ++ "## Raw Transcript Reference" ++ nl ++ "<details>" ++ nl
         ++ "<summary>Full conversation transcript</summary>" ++ nl ++ nl
         ++ t ++ nl ++ nl ++ "</details>"
     | None => ""
     end.

(** The Raw Transcript Reference section for transcript [t], from its
    heading to the closing tag. *)
Definition transcript_section (t : string) : string :=
  "## Raw Transcript Reference" ++ nl ++ "<details>" ++ nl
  ++ "<summary>Full conversation transcript</summary>" ++ nl ++ nl
  ++ t ++ nl ++ nl ++ "</details>".

(** Number of positions of [s] at which [pat] occurs. *)
Fixpoint occurrences (pat s : string) : nat :=
  match s with
  | EmptyString => if prefix pat EmptyString then 1 else 0
  | String _ rest => (if prefix pat s then 1 else 0) + occurrences pat rest
  end.

End PromptGenerator.

(* ================================================================== *)
(** ** Messages of the backend socket and the capture environment *)
(* ================================================================== *)

(** [JSON.parse(event.data)], by [message.type].  The payloads are those of
    the README's message table: a text chunk, a count, and a specification
    object of the API schema. *)
Inductive ServerMessage : Type :=
| msg_transcript (data : string)
| msg_word_count (count : nat)
| msg_project_spec (data : ProjectSpec)
| msg_other (type : string).

(** Commands the client writes to the socket. *)
Inductive ClientCommand : Type := start_capture | stop_capture.

Inductive ConnStatus : Type := Disconnected | Connected | Error | Recording.

Definition ConnStatus_eqb (a b : ConnStatus) : bool :=
  match a, b with
  | Disconnected, Disconnected | Connected, Connected
  | Error, Error | Recording, Recording => true
  | _, _ => false
  end.

Inductive ReadyState : Type := CONNECTING | OPEN | CLOSING | CLOSED.

Definition is_open (s : option ReadyState) : bool :=
  match s with Some OPEN => true | _ => false end.

Inductive RecorderState : Type := inactive | recording | paused.

Definition recorder_running (r : option RecorderState) : bool :=
  match r with
  | Some inactive => false
  | Some _ => true
  | None => false
  end.

(** A captured [MediaStream], by handle. *)
Definition MediaStream : Type := nat.

(** How [connectToBackend] ends. *)
Inductive ConnectOutcome : Type := connect_opened | connect_failed.

(** What the browser answers to the awaits of [startCapture]:
    [getDisplayMedia] rejects ([None]) or yields a stream that has audio
    tracks or not; the socket opens or fails; [new MediaRecorder] succeeds
    or throws. *)
Record CaptureEnv : Type := mkCaptureEnv {
  displayMedia : option (MediaStream * bool);
  backend : ConnectOutcome;
  recorderStarts : bool
}.

(** [(s).slice(-n)]: the last [n] code units, or all of [s]. *)
Definition slice_last (n : nat) (s : string) : string :=
  substring (String.length s - n) n s.

(** The chunks of a session laid end to end, a blank before each: what
    repeated [prev + ' ' + data] builds from the empty string. *)
Definition spaced (chunks : list string) : string :=
  fold_left (fun prev data => prev ++ " " ++ data) chunks "".

(* ================================================================== *)
(** ** extension/src/sidepanel.tsx *)
(* ================================================================== *)

Module SidePanel.

(** The [useState] cells and [useRef] boxes of the component, with the
    commands sent so far. *)
Record State : Type := mkState {
  status : ConnStatus;
  stream : option MediaStream;
  transcript : string;
  _fullTranscript : string;
  projectSpec : option ProjectSpec;
  buildStatus : string;
  wordCountProgress : nat;
  mediaRecorderRef : option RecorderState;
  socketRef : option ReadyState;
  sent : list ClientCommand
}.

Definition initial : State :=
  mkState Disconnected None "" "" None "" 0 None None [].

Definition setStatus (v : ConnStatus) (s : State) : State :=
  mkState v (stream s) (transcript s) (_fullTranscript s) (projectSpec s)
          (buildStatus s) (wordCountProgress s) (mediaRecorderRef s)
          (socketRef s) (sent s).
Definition setStream (v : option MediaStream) (s : State) : State :=
  mkState (status s) v (transcript s) (_fullTranscript s) (projectSpec s)
          (buildStatus s) (wordCountProgress s) (mediaRecorderRef s)
          (socketRef s) (sent s).
Definition setTranscript (f : string -> string) (s : State) : State :=
  mkState (status s) (stream s) (f (transcript s)) (_fullTranscript s)
          (projectSpec s) (buildStatus s) (wordCountProgress s)
          (mediaRecorderRef s) (socketRef s) (sent s).
Definition setFullTranscript (f : string -> string) (s : State) : State :=
  mkState (status s) (stream s) (transcript s) (f (_fullTranscript s))
          (projectSpec s) (buildStatus s) (wordCountProgress s)
          (mediaRecorderRef s) (socketRef s) (sent s).
Definition setProjectSpec (v : option ProjectSpec) (s : State) : State :=
  mkState (status s) (stream s) (transcript s) (_fullTranscript s) v
          (buildStatus s) (wordCountProgress s) (mediaRecorderRef s)
          (socketRef s) (sent s).
Definition setBuildStatus (v : string) (s : State) : State :=
  mkState (status s) (stream s) (transcript s) (_fullTranscript s)
          (projectSpec s) v (wordCountProgress s) (mediaRecorderRef s)
          (socketRef s) (sent s).
Definition setWordCountProgress (v : nat) (s : State) : State :=
  mkState (status s) (stream s) (transcript s) (_fullTranscript s)
          (projectSpec s) (buildStatus s) v (mediaRecorderRef s)
          (socketRef s) (sent s).
Definition setMediaRecorderRef (v : option RecorderState) (s : State) : State :=
  mkState (status s) (stream s) (transcript s) (_fullTranscript s)
          (projectSpec s) (buildStatus s) (wordCountProgress s) v
          (socketRef s) (sent s).
Definition setSocketRef (v : option ReadyState) (s : State) : State :=
  mkState (status s) (stream s) (transcript s) (_fullTranscript s)
          (projectSpec s) (buildStatus s) (wordCountProgress s)
          (mediaRecorderRef s) v (sent s).
Definition send (c : ClientCommand) (s : State) : State :=
  mkState (status s) (stream s) (transcript s) (_fullTranscript s)
          (projectSpec s) (buildStatus s) (wordCountProgress s)
          (mediaRecorderRef s) (socketRef s) (sent s ++ [c])%list.

(** [ws.onmessage]; [None] is an [event.data] on which [JSON.parse] throws,
    which the handler catches. *)
Definition onmessage (event : option ServerMessage) (s : State) : State :=
  match event with
  | Some (msg_transcript data) =>
      let s := setTranscript (fun prev => slice_last 300 (prev ++ " " ++ data)) s in
      setFullTranscript (fun prev => prev ++ " " ++ data) s
  | Some (msg_word_count count) => setWordCountProgress count s
  | Some (msg_project_spec data) =>
      let s := setProjectSpec (Some data) s in
      setWordCountProgress 0 s
  | Some (msg_other _) => s
  | None => s
  end.

(** [ws.onclose]. *)
Definition onclose (s : State) : State :=
  setStatus Disconnected (setSocketRef None s).

(** [ws.onerror] outside the connection attempt; [status0] is the [status]
    its closure captured. *)
Definition onerror (status0 : ConnStatus) (s : State) : State :=
  if ConnStatus_eqb status0 Disconnected then setStatus Error s else s.

(** The [catch] block of [startCapture]. *)
Definition startCapture_catch (s : State) : State :=
  let s := if recorder_running (mediaRecorderRef s)
           then setMediaRecorderRef (Some inactive) s else s in
  let s := match socketRef s with
           | Some _ => setSocketRef (Some CLOSING) s
           | None => s
           end in
  setStatus Error s.

(** [startCapture].  [status0] is the [status] the handler closure saw when
    it was created: [ws.onerror] rejects the connection promise only when it
    is [Disconnected], otherwise the await never resumes. *)
Definition startCapture (env : CaptureEnv) (s0 : State) : State :=
  let status0 := status s0 in
  let s := setStatus Connected s0 in
  match displayMedia env with
  | None => startCapture_catch s
  | Some (capturedStream, has_audio) =>
      if negb has_audio then setStatus Disconnected s
      else
        let connected :=
          if is_open (socketRef s) then Some s
          else match backend env with
               | connect_opened => Some (setSocketRef (Some OPEN) s)
               | connect_failed => None
               end in
        match connected with
        | None =>
            if ConnStatus_eqb status0 Disconnected
            then startCapture_catch (setStatus Error s)
            else s
        | Some s =>
            let s := send start_capture s in
            let s := setStream (Some capturedStream) s in
            let s := setFullTranscript (fun _ => "") s in
            let s := setTranscript (fun _ => "") s in
            let s := setWordCountProgress 0 s in
            let s := setProjectSpec None s in
            let s := setBuildStatus "" s in
            if recorderStarts env then
              let s := setMediaRecorderRef (Some recording) s in
              setStatus Recording s
            else startCapture_catch s
        end
  end.

(** Whether [startCapture] gets as far as sending [start_capture], that is
    whether it begins a new session. *)
Definition begins_session (env : CaptureEnv) (s0 : State) : bool :=
  match displayMedia env with
  | Some (_, true) =>
      is_open (socketRef s0)
      || match backend env with connect_opened => true | connect_failed => false end
  | _ => false
  end.

(** [stopCapture].  [stream0] is the [stream] its closure captured: the cell
    of the current render when End Session is pressed, the cell of the
    render in which Start Capture was clicked when the [onended] handler of
    the shared video track calls it.  The two refs are read live. *)
Definition stopCapture (stream0 : option MediaStream) (s : State) : State :=
  let s := if recorder_running (mediaRecorderRef s)
           then setMediaRecorderRef (Some inactive) s else s in
  let s := match stream0 with
           | Some _ => setStream None s
           | None => s
           end in
  let s := if is_open (socketRef s) then send stop_capture s else s in
  setStatus Disconnected s.

(** The events that write the cells above: socket events, the two capture
    buttons, and the build and generate handlers, which only set
    [buildStatus]. *)
Inductive Event : Type :=
| ev_message (event : option ServerMessage)
| ev_close
| ev_error (status0 : ConnStatus)
| ev_startCapture (env : CaptureEnv)
| ev_stopCapture (stream0 : option MediaStream)
| ev_buildStatus (text : string).

Definition step (s : State) (e : Event) : State :=
  match e with
  | ev_message m => onmessage m s
  | ev_close => onclose s
  | ev_error status0 => onerror status0 s
  | ev_startCapture env => startCapture env s
  | ev_stopCapture stream0 => stopCapture stream0 s
  | ev_buildStatus text => setBuildStatus text s
  end.

Definition run (s : State) (es : list Event) : State := fold_left step es s.

(** The transcript chunks received since the session in progress began:
    a [startCapture] that begins a session forgets the earlier ones. *)
Fixpoint chunks_since_start (s : State) (es : list Event) (acc : list string)
  : list string :=
  match es with
  | [] => acc
  | e :: es' =>
      let acc' :=
        match e with
        | ev_message (Some (msg_transcript data)) => (acc ++ [data])%list
        | ev_startCapture env => if begins_session env s then [] else acc
        | _ => acc
        end in
      chunks_since_start (step s e) es' acc'
  end.

(** [handleBuildProject]: the prompt handed to the clipboard. *)
Definition handleBuildProject_prompt (s : State) : option string :=
  match projectSpec s with
  | None => None
  | Some p =>
      let specWithTranscript :=
        mkProjectSpec (project_summary p) (requirements p) (tech_stack p)
                      (ui_preferences p) (Some (_fullTranscript s)) in
      Some (PromptGenerator.generateSuperPrompt specWithTranscript)
  end.

End SidePanel.

(* ================================================================== *)
(** ** landing/src/pages/Dashboard.jsx *)
(* ================================================================== *)

Module Dashboard.

(** The landing page keeps the same cells as the side panel except the word
    counter, and ignores [word_count] messages. *)
Record State : Type := mkState {
  status : ConnStatus;
  stream : option MediaStream;
  transcript : string;
  _fullTranscript : string;
  projectSpec : option ProjectSpec;
  buildStatus : string;
  mediaRecorderRef : option RecorderState;
  socketRef : option ReadyState;
  sent : list ClientCommand
}.

Definition initial : State :=
  mkState Disconnected None "" "" None "" None None [].

Definition setStatus (v : ConnStatus) (s : State) : State :=
  mkState v (stream s) (transcript s) (_fullTranscript s) (projectSpec s)
          (buildStatus s) (mediaRecorderRef s) (socketRef s) (sent s).
Definition setStream (v : option MediaStream) (s : State) : State :=
  mkState (status s) v (transcript s) (_fullTranscript s) (projectSpec s)
          (buildStatus s) (mediaRecorderRef s) (socketRef s) (sent s).
Definition setTranscript (f : string -> string) (s : State) : State :=
  mkState (status s) (stream s) (f (transcript s)) (_fullTranscript s)
          (projectSpec s) (buildStatus s) (mediaRecorderRef s) (socketRef s)
          (sent s).
Definition setFullTranscript (f : string -> string) (s : State) : State :=
  mkState (status s) (stream s) (transcript s) (f (_fullTranscript s))
          (projectSpec s) (buildStatus s) (mediaRecorderRef s) (socketRef s)
          (sent s).
Definition setProjectSpec (v : option ProjectSpec) (s : State) : State :=
  mkState (status s) (stream s) (transcript s) (_fullTranscript s) v
          (buildStatus s) (mediaRecorderRef s) (socketRef s) (sent s).
Definition setBuildStatus (v : string) (s : State) : State :=
  mkState (status s) (stream s) (transcript s) (_fullTranscript s)
          (projectSpec s) v (mediaRecorderRef s) (socketRef s) (sent s).
Definition setMediaRecorderRef (v : option RecorderState) (s : State) : State :=
  mkState (status s) (stream s) (transcript s) (_fullTranscript s)
          (projectSpec s) (buildStatus s) v (socketRef s) (sent s).
Definition setSocketRef (v : option ReadyState) (s : State) : State :=
  mkState (status s) (stream s) (transcript s) (_fullTranscript s)
          (projectSpec s) (buildStatus s) (mediaRecorderRef s) v (sent s).
Definition send (c : ClientCommand) (s : State) : State :=
  mkState (status s) (stream s) (transcript s) (_fullTranscript s)
          (projectSpec s) (buildStatus s) (mediaRecorderRef s) (socketRef s)
          (sent s ++ [c])%list.

Definition onmessage (event : option ServerMessage) (s : State) : State :=
  match event with
  | Some (msg_transcript data) =>
      let s := setTranscript (fun prev => slice_last 300 (prev ++ " " ++ data)) s in
      setFullTranscript (fun prev => prev ++ " " ++ data) s
  | Some (msg_project_spec data) => setProjectSpec (Some data) s
  | Some (msg_word_count _) => s
  | Some (msg_other _) => s
  | None => s
  end.

Definition onclose (s : State) : State :=
  setStatus Disconnected (setSocketRef None s).

Definition onerror (status0 : ConnStatus) (s : State) : State :=
  if ConnStatus_eqb status0 Disconnected then setStatus Error s else s.

Definition startCapture_catch (s : State) : State :=
  let s := if recorder_running (mediaRecorderRef s)
           then setMediaRecorderRef (Some inactive) s else s in
  let s := match socketRef s with
           | Some _ => setSocketRef (Some CLOSING) s
           | None => s
           end in
  setStatus Error s.

Definition startCapture (env : CaptureEnv) (s0 : State) : State :=
  let status0 := status s0 in
  let s := setStatus Connected s0 in
  match displayMedia env with
  | None => startCapture_catch s
  | Some (capturedStream, has_audio) =>
      if negb has_audio then setStatus Disconnected s
      else
        let connected :=
          if is_open (socketRef s) then Some s
          else match backend env with
               | connect_opened => Some (setSocketRef (Some OPEN) s)
               | connect_failed => None
               end in
        match connected with
        | None =>
            if ConnStatus_eqb status0 Disconnected
            then startCapture_catch (setStatus Error s)
            else s
        | Some s =>
            let s := send start_capture s in
            let s := setStream (Some capturedStream) s in
            let s := setFullTranscript (fun _ => "") s in
            let s := setTranscript (fun _ => "") s in
            let s := setProjectSpec None s in
            let s := setBuildStatus "" s in
            if recorderStarts env then
              let s := setMediaRecorderRef (Some recording) s in
              setStatus Recording s
            else startCapture_catch s
        end
  end.

Definition begins_session (env : CaptureEnv) (s0 : State) : bool :=
  match displayMedia env with
  | Some (_, true) =>
      is_open (socketRef s0)
      || match backend env with connect_opened => true | connect_failed => false end
  | _ => false
  end.

(** [stopCapture], with the [stream] its closure captured, as in the side
    panel. *)
Definition stopCapture (stream0 : option MediaStream) (s : State) : State :=
  let s := if recorder_running (mediaRecorderRef s)
           then setMediaRecorderRef (Some inactive) s else s in
  let s := match stream0 with
           | Some _ => setStream None s
           | None => s
           end in
  let s := if is_open (socketRef s) then send stop_capture s else s in
  setStatus Disconnected s.

Inductive Event : Type :=
| ev_message (event : option ServerMessage)
| ev_close
| ev_error (status0 : ConnStatus)
| ev_startCapture (env : CaptureEnv)
| ev_stopCapture (stream0 : option MediaStream)
| ev_buildStatus (text : string).

Definition step (s : State) (e : Event) : State :=
  match e with
  | ev_message m => onmessage m s
  | ev_close => onclose s
  | ev_error status0 => onerror status0 s
  | ev_startCapture env => startCapture env s
  | ev_stopCapture stream0 => stopCapture stream0 s
  | ev_buildStatus text => setBuildStatus text s
  end.

Definition run (s : State) (es : list Event) : State := fold_left step es s.

(** The transcript chunks received since the session in progress began:
    a [startCapture] that begins a session forgets the earlier ones. *)
Fixpoint chunks_since_start (s : State) (es : list Event) (acc : list string)
  : list string :=
  match es with
  | [] => acc
  | e :: es' =>
      let acc' :=
        match e with
        | ev_message (Some (msg_transcript data)) => (acc ++ [data])%list
        | ev_startCapture env => if begins_session env s then [] else acc
        | _ => acc
        end in
      chunks_since_start (step s e) es' acc'
  end.

End Dashboard.

(* ================================================================== *)
(** ** The Reconciliation Engine (backend, design document 4.3) *)
(* ================================================================== *)

Module Reconciliation.

(** Modelled from the spec: the committed ProjectSpecification of section 3
    (the backend that holds it is not among the sources). *)
Record ProjectSpecification : Type := mkProjectSpecification {
  project_summary : string;
  requirements : list Requirement;
  tech_stack : list string;
  ui_preferences : list string
}.

(** Modelled from the spec: a Session owns one committed specification and
    one next-identifier counter. *)
Record Session : Type := mkSession {
  committed : ProjectSpecification;
  next_id : nat
}.

(** Modelled from the spec: the empty initial state of a session; the first
    identifier handed out is 1, as in the wire examples. *)
Definition initial : Session :=
  mkSession (mkProjectSpecification "" [] [] []) 1.

(** Modelled from the spec: ASCII case folding for the case-insensitive
    deduplication of technologies and preferences. *)
Definition lower_ascii (c : ascii) : ascii :=
  let n := nat_of_ascii c in
  if (65 <=? n)%nat && (n <=? 90)%nat then ascii_of_nat (n + 32) else c.

(** Modelled from the spec: case folding of a whole entry. *)
Fixpoint lower (s : string) : string :=
  match s with
  | EmptyString => EmptyString
  | String c rest => String (lower_ascii c) (lower rest)
  end.

(** Modelled from the spec: equality of two entries up to case. *)
Definition same_ci (a b : string) : bool := String.eqb (lower a) (lower b).

(** Modelled from the spec: one candidate entry joins the collection, at
    the end, unless an entry equal up to case is there already. *)
Definition add_ci (acc : list string) (x : string) : list string :=
  if existsb (same_ci x) acc then acc else (acc ++ [x])%list.

(** Modelled from the spec: union of the candidate entries into the committed
    collection, deduplicating case-insensitively, first-seen order kept. *)
Definition union_ci (committed_entries candidate_entries : list string)
  : list string :=
  fold_left add_ci candidate_entries committed_entries.

(** Modelled from the spec: a change of status keeps the identifier, the
    description and the link. *)
Definition set_status (st : Status) (r : Requirement) : Requirement :=
  mkRequirement (id r) (description r) st (supersedes r).

(** Modelled from the spec: marking the requirement with identifier [k]
    superseded, in place. *)
Definition supersede (k : nat) (reqs : list Requirement) : list Requirement :=
  map (fun r => if (id r =? k)%nat then set_status superseded r else r) reqs.

Section Engine.

(** The extractor's supersession hint is an opaque match token; what it
    refers to is decided by the extraction contract. *)
Variable Hint : Type.
Variable hint_matches : Hint -> Requirement -> bool.

(** The textual match of step 3b (case-insensitive, whitespace-normalized,
    exact or near-exact): candidate description against committed one. *)
Variable text_match : string -> string -> bool.

(** Modelled from the spec: a candidate requirement is a plain description,
    optionally flagged with a supersession hint, and carries no identifier. *)
Record CandidateRequirement : Type := mkCandidateRequirement {
  c_description : string;
  c_hint : option Hint
}.

(** Modelled from the spec: the extractor's output, shaped like the
    committed specification but without identifiers. *)
Record CandidateSpecification : Type := mkCandidateSpecification {
  c_project_summary : string;
  c_requirements : list CandidateRequirement;
  c_tech_stack : list string;
  c_ui_preferences : list string
}.

(** Modelled from the spec: the tie-break rule.  Among the active
    requirements the hint matches, the most recently created one (highest
    id) is the one superseded. *)
Definition prefer (best : option Requirement) (r : Requirement)
  : option Requirement :=
  match best with
  | None => Some r
  | Some b => if (id b <? id r)%nat then Some r else Some b
  end.

(** Modelled from the spec: the active requirement a hint refers to, if any,
    ties broken by [prefer]. *)
Definition resolve (h : Hint) (reqs : list Requirement) : option Requirement :=
  fold_left
    (fun best r => if is_active r && hint_matches h r then prefer best r else best)
    reqs None.

(** Modelled from the spec: step 3b, the description matches that of an
    already-active requirement. *)
Definition restated (d : string) (reqs : list Requirement) : bool :=
  existsb (fun r => is_active r && text_match d (description r)) reqs.

(** Modelled from the spec: step 3 for one candidate requirement, on the
    ordered collection and the next-identifier counter. *)
Definition process_requirement (acc : list Requirement * nat)
    (c : CandidateRequirement) : list Requirement * nat :=
  let (reqs, next) := acc in
  let target :=
    match c_hint c with
    | Some h => resolve h reqs
    | None => None
    end in
  match target with
  | Some old =>
      ((supersede (id old) reqs
        ++ [mkRequirement next (c_description c) active (Some (id old))])%list,
       S next)
  | None =>
      if restated (c_description c) reqs then (reqs, next)
      else
        ((reqs ++ [mkRequirement next (c_description c) active None])%list,
         S next)
  end.

(** Modelled from the spec: the state transition of section 4.3, steps 1
    to 5. *)
Definition reconcile (s : Session) (c : CandidateSpecification) : Session :=
  let prior := committed s in
  let (reqs, next) :=
    fold_left process_requirement (c_requirements c)
              (requirements prior, next_id s) in
  mkSession
    (mkProjectSpecification
       (c_project_summary c)
       reqs
       (union_ci (tech_stack prior) (c_tech_stack c))
       (union_ci (ui_preferences prior) (c_ui_preferences c)))
    next.

(** Modelled from the spec: one reconciliation cycle.  A failed extraction
    ([None]) skips the cycle and the committed state stands. *)
Definition cycle (s : Session) (extracted : option CandidateSpecification)
  : Session :=
  match extracted with
  | Some c => reconcile s c
  | None => s
  end.

(** Modelled from the spec: a sequence of cycles, each starting from the
    state the previous one committed. *)
Definition run (s : Session) (cycles : list (option CandidateSpecification))
  : Session :=
  fold_left cycle cycles s.

(** The identifiers of the committed requirements, in collection order,
    which is the order of assignment since requirements are only appended. *)
Definition ids (s : Session) : list nat := map id (requirements (committed s)).



End Engine.

Arguments mkCandidateRequirement {Hint} _ _.
Arguments c_description {Hint} _.
Arguments c_hint {Hint} _.
Arguments mkCandidateSpecification {Hint} _ _ _ _.
Arguments c_project_summary {Hint} _.
Arguments c_requirements {Hint} _.
Arguments c_tech_stack {Hint} _.
Arguments c_ui_preferences {Hint} _.

(** Modelled from the spec: a hint that is an explicit reference into the
    prior requirement list, here the identifier of the requirement. *)
Definition id_hint (h : nat) (r : Requirement) : bool := (id r =? h)%nat.

(** Modelled from the spec: white space, for the whitespace-normalized
    textual match. *)
Definition is_space (c : ascii) : bool :=
  let n := nat_of_ascii c in
  (n =? 32)%nat || ((9 <=? n)%nat && (n <=? 13)%nat).

(** Modelled from the spec: white-space normalization.  Leading and
    trailing white space goes and every inner run becomes one blank;
    [pending] tells that a run was seen after some text. *)
Fixpoint squeeze (pending started : bool) (s : string) : string :=
  match s with
  | EmptyString => EmptyString
  | String c rest =>
      if is_space c then squeeze started started rest
      else if pending then String " "%char (String c (squeeze false true rest))
      else String c (squeeze false true rest)
  end.

(** Modelled from the spec: the case-insensitive, whitespace-normalized
    form of a description, and the exact match on it. *)
Definition normalize (s : string) : string := squeeze false false (lower s).

Definition normalized_match (a b : string) : bool :=
  String.eqb (normalize a) (normalize b).



(** Modelled from the spec: identifiers are handed out in increasing order,
    so a requirement lies below the counter and above the requirement it
    supersedes. *)
Definition below (next : nat) (r : Requirement) : Prop :=
  id r < next /\ forall k, supersedes r = Some k -> k < id r.


(** The navigation scenario of the design document: requirement 3 is
    replaced by a new requirement 4. *)
Definition navbar_session : Session :=
  mkSession
    (mkProjectSpecification
       "A dashboard for crypto tracking"
       [ mkRequirement 1 "Dark mode UI" active None;
         mkRequirement 2 "Show live prices" active None;
         mkRequirement 3 "Use navbar navigation" active None ]
       ["React"; "Tailwind"]
       ["Dark theme"])
    4.

Definition sidebar_candidate : CandidateSpecification nat :=
  mkCandidateSpecification
    "A dashboard for crypto tracking"
    [ mkCandidateRequirement "Dark mode UI" None;
      mkCandidateRequirement "Use sidebar navigation" (Some 3) ]
    ["react"; "Lucide Icons"]
    ["Dark theme"].

Definition sidebar_session : Session :=
  reconcile nat id_hint normalized_match navbar_session sidebar_candidate.

End Reconciliation.

(* ================================================================== *)
(** ** extension/src/sidepanel.tsx: buttons, effect and footer *)
(* ================================================================== *)

Module SidePanelUI.
Import SidePanel.

(** The object spread
    [{ ...projectSpec, raw_transcript_snapshot: _fullTranscript }]. *)
Definition specWithTranscript (p : ProjectSpec) (s : State) : ProjectSpec :=
  mkProjectSpec (project_summary p) (requirements p) (tech_stack p)
                (ui_preferences p) (Some (_fullTranscript s)).

(** [handleBuildProject], with the [selectedTool] its closure sees.  The
    timeout that empties [buildStatus] three seconds later is a separate
    [ev_buildStatus] event. *)
Definition handleBuildProject (selectedTool : AgenticTool) (s : State)
  : Js State :=
  match projectSpec s with
  | None => ret s
  | Some p =>
      let prompt := PromptGenerator.generateSuperPrompt (specWithTranscript p s) in
      result <- PromptGenerator.copyToClipboardAndRedirect prompt selectedTool ;;
      ret (setBuildStatus (PromptGenerator.message result) s)
  end.

(** [handleDownload]. *)
Definition handleDownload (s : State) : Js unit :=
  match projectSpec s with
  | None => ret tt
  | Some p => PromptGenerator.downloadPromptAsFile (specWithTranscript p s)
  end.

(** The capture button of the footer: Start Capture, possibly disabled,
    unless the status is Recording, in which case End Session. *)
Inductive FooterButton : Type :=
| StartCapture (disabled : bool)
| EndSession.

Definition footer (s : State) : FooterButton :=
  if negb (ConnStatus_eqb (status s) Recording) then
    StartCapture (ConnStatus_eqb (status s) Connected
                  || ConnStatus_eqb (status s) Error)
  else EndSession.

(** The events a user can cause by pressing what is rendered: the capture
    button as the footer shows it, and the build, copy and download buttons,
    whose handlers and timeouts only write [buildStatus]. *)
Definition pressable (s : State) (e : Event) : bool :=
  match e with
  | ev_startCapture _ =>
      match footer s with StartCapture false => true | _ => false end
  | ev_stopCapture _ =>
      match footer s with EndSession => true | _ => false end
  | ev_buildStatus _ => true
  | ev_message _ => false
  | ev_close => false
  | ev_error _ => false
  end.

Fixpoint pressed (s : State) (es : list Event) : bool :=
  match es with
  | [] => true
  | e :: es' => pressable s e && pressed (step s e) es'
  end.

(** *** The effect that tracks new requirements *)

(** [new Set(array)] of numbers: the first occurrences, in order. *)
Fixpoint Set_of (l : list nat) : list nat :=
  match l with
  | [] => []
  | x :: xs => x :: filter (fun y => negb (y =? x)%nat) (Set_of xs)
  end.

(** [set.has(x)]. *)
Definition has (set : list nat) (x : nat) : bool := existsb (Nat.eqb x) set.

(** The [newRequirementIds] cell and the [previousSpecRef] box. *)
Record Pulse : Type := mkPulse {
  newRequirementIds : list nat;
  previousSpecRef : option ProjectSpec
}.

(** The body of [useEffect(..., [projectSpec])], run with the new value of
    [projectSpec]. *)
Definition trackNewRequirements (projectSpec : option ProjectSpec) (t : Pulse)
  : Pulse :=
  let t :=
    match projectSpec, previousSpecRef t with
    | Some spec, Some previous =>
        let prevIds := Set_of (map id (requirements previous)) in
        let newIds :=
          map id (filter (fun r => negb (has prevIds (id r))) (requirements spec)) in
        if (0 <? List.length newIds)%nat
        then mkPulse (Set_of newIds) (previousSpecRef t)
        else t
    | _, _ => t
    end in
  mkPulse (newRequirementIds t) projectSpec.

(** The timeout of the effect: [setNewRequirementIds(new Set())]. *)
Definition clearNewRequirements (t : Pulse) : Pulse :=
  mkPulse [] (previousSpecRef t).

(** [isNew] as handed to the item of requirement [r]. *)
Definition isNew (t : Pulse) (r : Requirement) : bool :=
  has (newRequirementIds t) (id r).

End SidePanelUI.

(* ================================================================== *)
(** ** handleGenerateCode: the streamed answer of [/api/generate]

    The function has the same body in the side panel and on the landing
    page.  It writes three cells: [buildStatus], [generatedCode] and
    [isGenerating]. *)
(* ================================================================== *)

Module CodeGeneration.

(** A [GeneratedFile] of [utils/zipGenerator]. *)
Record GeneratedFile : Type := mkGeneratedFile {
  path : string;
  content : string
}.

(** [message.error] as the handler can observe it: a missing field, [null],
    a string, or another JSON value, given by its truthiness and by the text
    a template literal prints for it. *)
Inductive ErrorField : Type :=
| error_missing
| error_null
| error_text (e : string)
| error_value (is_truthy : bool) (shown : string).

(** The fields the handler reads from a parsed line.  A missing field is
    [None]; [success] is the truthiness of [message.success]. *)
Record GenMessage : Type := mkGenMessage {
  m_status : option string;
  m_success : bool;
  m_files : option (list GeneratedFile);
  m_project_name : option string;
  m_description : option string;
  m_setup_commands : option (list string);
  m_error : ErrorField
}.

(** The object handed to [setGeneratedCode]. *)
Record GeneratedCode : Type := mkGeneratedCode {
  projectName : option string;
  files : option (list GeneratedFile);
  description : option string;
  setupCommands : option (list string)
}.

Record Gen : Type := mkGen {
  buildStatus : string;
  generatedCode : option GeneratedCode;
  isGenerating : bool
}.

Definition setBuildStatus (v : string) (g : Gen) : Gen :=
  mkGen v (generatedCode g) (isGenerating g).
Definition setGeneratedCode (v : option GeneratedCode) (g : Gen) : Gen :=
  mkGen (buildStatus g) v (isGenerating g).
Definition setIsGenerating (v : bool) (g : Gen) : Gen :=
  mkGen (buildStatus g) (generatedCode g) v.

(** [message.status === word]. *)
Definition status_is (m : GenMessage) (word : string) : bool :=
  match m_status m with
  | Some w => String.eqb w word
  | None => false
  end.

(** [message.files?.length > 0]. *)
Definition has_files (m : GenMessage) : bool :=
  match m_files m with
  | Some fs => (0 <? List.length fs)%nat
  | None => false
  end.

(** [`${message.error}`]: a missing field prints as [undefined], [null] as
    [null]. *)
Definition show_error (m : GenMessage) : string :=
  match m_error m with
  | error_missing => "undefined"
  | error_null => "null"
  | error_text e => e
  | error_value _ shown => shown
  end.

(** [`${message.error || 'No code generated'}`]: the default stands in for a
    missing field, [null], the empty string and any other falsy value. *)
Definition show_error_or_default (m : GenMessage) : string :=
  match m_error m with
  | error_missing => "No code generated"
  | error_null => "No code generated"
  | error_text e =>
      match e with
      | EmptyString => "No code generated"
      | String _ _ => e
      end
  | error_value is_truthy shown =>
      if is_truthy then shown else "No code generated"
  end.

(** The chain of conditionals applied to a parsed message. *)
Definition on_message (m : GenMessage) (g : Gen) : Gen :=
  if status_is m "planning" then
    setBuildStatus "🧠 Architecting Solution..." g
  else if status_is m "planning_complete" then
    setBuildStatus "📝 Blueprint Created!" g
  else if status_is m "building" then
    setBuildStatus "🔨 Building Code Modules..." g
  else if status_is m "complete" || m_success m then
    if m_success m && has_files m then
      let g :=
        setGeneratedCode
          (Some (mkGeneratedCode (m_project_name m) (m_files m)
                                 (m_description m) (m_setup_commands m))) g in
      setBuildStatus "" g
    else
      setBuildStatus ("Error: " ++ show_error_or_default m) g
  else if status_is m "error" then
    setBuildStatus ("Error: " ++ show_error m) g
  else g.

(** [s.split('\n')]: the pieces between line feeds, at least one. *)
Fixpoint split_nl (s : string) : list string :=
  match s with
  | EmptyString => [EmptyString]
  | String c rest =>
      if Ascii.eqb c (ascii_of_nat 10) then EmptyString :: split_nl rest
      else
        match split_nl rest with
        | [] => [String c EmptyString]
        | piece :: pieces => String c piece :: pieces
        end
  end.

(** What the browser answers: [fetch] rejects, the response has no body, or
    the body yields decoded chunks and then ends or fails. *)
Inductive StreamEnd : Type := stream_done | read_rejects.

Inductive Response : Type :=
| fetch_rejects
| no_body
| body (chunks : list string) (ending : StreamEnd).

Section Reader.

(** [!line.trim()] and [JSON.parse(line)] (with [None] when it throws or
    when reading a field of the value throws) are left to the browser. *)
Variable blank : string -> bool.
Variable JSON_parse : string -> option GenMessage.

(** The body of [for (const line of lines)]. *)
Definition process_line (g : Gen) (line : string) : Gen :=
  if blank line then g
  else
    match JSON_parse line with
    | Some m => on_message m g
    | None => g
    end.

(** One turn of the [while] loop after a successful [reader.read()]. *)
Definition read_chunk (acc : string * Gen) (chunk : string) : string * Gen :=
  let (buffer, g) := acc in
  let buffer := buffer ++ chunk in
  let lines := split_nl buffer in
  let buffer := last lines "" in
  let lines := removelast lines in
  (buffer, fold_left process_line lines g).

(** The [catch] block; its timeout empties [buildStatus] later. *)
Definition generation_failed (g : Gen) : Gen :=
  setBuildStatus "Failed to generate code. Is the backend running?" g.

Definition handleGenerateCode (projectSpec : option ProjectSpec)
    (response : Response) (g : Gen) : Gen :=
  match projectSpec with
  | None => g
  | Some _ =>
      let g := setIsGenerating true g in
      let g := setBuildStatus "Generating code with AI..." g in
      let g :=
        match response with
        | fetch_rejects => generation_failed g
        | no_body => generation_failed g
        | body chunks ending =>
            let (_, g) := fold_left read_chunk chunks ("", g) in
            match ending with
            | stream_done => g
            | read_rejects => generation_failed g
            end
        end in
      setIsGenerating false g
  end.

(** The lines of a whole stream that end with a line feed. *)
Definition complete_lines (stream : string) : list string :=
  removelast (split_nl stream).

End Reader.

End CodeGeneration.

(* ================================================================== *)
(** ** utils/zipGenerator and components/CodePreview: copying a file *)
(* ================================================================== *)

Module CodePreview.
Import CodeGeneration.

Definition copyFileToClipboard (content : string) : Js bool :=
  try_catch
    (clipboard_writeText content ;;; ret true)
    (fun error =>
     console_error "Failed to copy to clipboard:" error ;;;
     ret false).

(** [handleCopy(index)] on the [copiedIndex] cell; reading [content] of a
    missing file throws.  The timeout that empties the cell comes later. *)
Definition handleCopy (files : list GeneratedFile) (index : nat)
    (copiedIndex : option nat) : Js (option nat) :=
  match nth_error files index with
  | None => fun w => (Thrown "TypeError", w)
  | Some file =>
      success <- copyFileToClipboard (content file) ;;
      if (success : bool) then ret (Some index) else ret copiedIndex
  end.

End CodePreview.

(* ================================================================== *)
(** ** landing/src/pages/Dashboard.jsx: the number shown for a requirement *)
(* ================================================================== *)

Module RequirementLabel.

(** [String(n)] for a natural number. *)
Definition String_of (n : nat) : string :=
  NilEmpty.string_of_uint (Nat.to_uint n).

Fixpoint repeat_char (c : ascii) (n : nat) : string :=
  match n with
  | O => EmptyString
  | S n' => String c (repeat_char c n')
  end.

(** [s.padStart(targetLength, fill)] for a fill of one character. *)
Definition padStart (targetLength : nat) (fill : ascii) (s : string) : string :=
  repeat_char fill (targetLength - String.length s) ++ s.

(** [String(req.id).padStart(2, '0')]. *)
Definition req_id (r : Requirement) : string :=
  padStart 2 "0"%char (String_of (id r)).

(** Reading a decimal label back. *)
Definition read_label (s : string) : option nat :=
  option_map Nat.of_uint (NilEmpty.uint_of_string s).

End RequirementLabel.

(* ================================================================== *)
(** ** The landing page as a side panel without word counter *)
(* ================================================================== *)

Module Correspondence.

(** The cells the two components share. *)
Definition shared (s : SidePanel.State) : Dashboard.State :=
  Dashboard.mkState
    (SidePanel.status s) (SidePanel.stream s) (SidePanel.transcript s)
    (SidePanel._fullTranscript s) (SidePanel.projectSpec s)
    (SidePanel.buildStatus s) (SidePanel.mediaRecorderRef s)
    (SidePanel.socketRef s) (SidePanel.sent s).

Definition same_event (e : SidePanel.Event) : Dashboard.Event :=
  match e with
  | SidePanel.ev_message m => Dashboard.ev_message m
  | SidePanel.ev_close => Dashboard.ev_close
  | SidePanel.ev_error status0 => Dashboard.ev_error status0
  | SidePanel.ev_startCapture env => Dashboard.ev_startCapture env
  | SidePanel.ev_stopCapture stream0 => Dashboard.ev_stopCapture stream0
  | SidePanel.ev_buildStatus text => Dashboard.ev_buildStatus text
  end.

End Correspondence.

(* ================================================================== *)
(** ** A view of [slice] *)
(* ================================================================== *)

(** [s] without its first [k] code units: [s.slice(k)]. *)
Fixpoint skip (k : nat) (s : string) : string :=
  match k, s with
  | O, _ => s
  | S _, EmptyString => EmptyString
  | S k', String _ rest => skip k' rest
  end.

(* ================================================================== *)
(** ** Sample data *)
(* ================================================================== *)

Module Samples.

(** The README specification after a renumbering, with one more requirement
    that was dropped along the way. *)
Definition renumbered_spec : ProjectSpec :=
  mkProjectSpec
    "A dashboard for crypto tracking"
    [ mkRequirement 7 "Use tabs" superseded None;
      mkRequirement 10 "Dark mode UI" active (Some 4);
      mkRequirement 12 "Use navbar navigation" superseded None;
      mkRequirement 20 "Use sidebar navigation" active None ]
    ["React"; "Tailwind"; "Lucide Icons"]
    (Some ["Dark theme"; "Minimal design"])
    (Some " we need a dashboard for crypto tracking").

(** A client who asked for a navbar, then a sidebar, then the navbar
    again. *)
Definition flip_flop_spec : ProjectSpec :=
  mkProjectSpec
    "A dashboard for crypto tracking"
    [ mkRequirement 1 "Use navbar navigation" superseded None;
      mkRequirement 2 "Use sidebar navigation" superseded (Some 1);
      mkRequirement 3 "Use navbar navigation" active (Some 2) ]
    ["React"]
    None
    None.

(** The Requirements section of the prompt of a specification, from its
    heading to the end of its last item. *)
Definition requirements_section (spec : ProjectSpec) : string :=
  "## Requirements" ++ nl
  ++ join nl (map (fun r => "- " ++ description r)
                  (filter is_active (requirements spec)))
  ++ nl.

(** A browser in which the clipboard works, at a given instant. *)
Definition quiet_world : World :=
  mkWorld None None [] [] "2026-01-02T10:15:30.000Z" [].

(** A session of the side panel: capture starts, two chunks and a
    specification arrive. *)
Definition capture_env : CaptureEnv :=
  mkCaptureEnv (Some (1, true)) connect_opened true.

Definition short_session : list SidePanel.Event :=
  [ SidePanel.ev_startCapture capture_env;
    SidePanel.ev_message (Some (msg_transcript "we need a dashboard"));
    SidePanel.ev_message (Some (msg_word_count 4));
    SidePanel.ev_message (Some (msg_transcript "for crypto tracking"));
    SidePanel.ev_message (Some (msg_project_spec PromptGenerator.readme_spec)) ].

(** A second capture at a moment when no new connection could be made. *)
Definition offline_env : CaptureEnv :=
  mkCaptureEnv (Some (2, true)) connect_failed true.

(** Two lines of a generation stream, and a reader that knows them. *)
Definition quote : string := String (ascii_of_nat 34) EmptyString.

Definition planning_line : string :=
  "{" ++ quote ++ "status" ++ quote ++ ": " ++ quote ++ "planning" ++ quote ++ "}".

Definition complete_line : string :=
  "{" ++ quote ++ "success" ++ quote ++ ": true, "
  ++ quote ++ "files" ++ quote ++ ": [{" ++ quote ++ "path" ++ quote ++ ": "
  ++ quote ++ "src/App.jsx" ++ quote ++ ", " ++ quote ++ "content" ++ quote
  ++ ": " ++ quote ++ "export default App" ++ quote ++ "}]}".

Definition complete_message : CodeGeneration.GenMessage :=
  CodeGeneration.mkGenMessage
    None true
    (Some [CodeGeneration.mkGeneratedFile "src/App.jsx" "export default App"])
    None None None CodeGeneration.error_missing.

Definition sample_parse (line : string) : option CodeGeneration.GenMessage :=
  if String.eqb line planning_line then
    Some (CodeGeneration.mkGenMessage (Some "planning") false None None None
                                      None CodeGeneration.error_missing)
  else if String.eqb line complete_line then Some complete_message
  else None.

Fixpoint sample_blank (line : string) : bool :=
  match line with
  | EmptyString => true
  | String c rest => Reconciliation.is_space c && sample_blank rest
  end.

Definition idle_gen : CodeGeneration.Gen :=
  CodeGeneration.mkGen "" None false.

End Samples.

(* ================================================================== *)
(** * Properties *)
(* ================================================================== *)

(** ** Strings *)

Lemma append_assoc (a b c : string) : (a ++ b) ++ c = a ++ b ++ c.
Proof.
  induction a as [|x a IH]; simpl; [reflexivity|].
  now rewrite IH.
Qed.

Lemma append_nil_r (a : string) : a ++ "" = a.
Proof.
  induction a as [|x a IH]; simpl; [reflexivity|].
  now rewrite IH.
Qed.

Lemma prefix_append (p s : string) : prefix p (p ++ s) = true.
Proof.
  induction p as [|x p IH]; simpl.
  - now destruct s.
  - destruct (ascii_dec x x) as [_|ne]; [exact IH | now elim ne].
Qed.

Lemma status_is_active (r : Requirement) : is_active r = true <-> status r = active.
Proof.
  unfold is_active. destruct (status r); simpl; split; congruence.
Qed.


Module PromptGeneratorSpec.
Import PromptGenerator.

Lemma occurrences_suffix (pat a s : string) :
  occurrences pat s <= occurrences pat (a ++ s).
Proof.
  induction a as [|x a IH]; [apply Nat.le_refl|].
  change (String x a ++ s) with (String x (a ++ s)). cbn [occurrences].
  destruct (prefix pat (String x (a ++ s))); lia.
Qed.

Lemma occurrences_self (pat s : string) : 1 <= occurrences pat (pat ++ s).
Proof.
  pose proof (prefix_append pat s) as P.
  destruct (pat ++ s) as [|x r] eqn:E; cbn [occurrences]; rewrite P.
  - apply Nat.le_refl.
  - lia.
Qed.

Lemma occurrences_twice (x : ascii) (p a mid : string) :
  2 <= occurrences (String x p) (a ++ String x p ++ mid ++ String x p).
Proof.
  eapply Nat.le_trans; [| apply occurrences_suffix].
  pose proof (prefix_append (String x p) (mid ++ String x p)) as P.
  change (String x p ++ mid ++ String x p)
    with (String x (p ++ mid ++ String x p)) in *.
  cbn [occurrences]. rewrite P.
  assert (1 <= occurrences (String x p) (p ++ mid ++ String x p)).
  { rewrite <- append_assoc.
    eapply Nat.le_trans; [| apply occurrences_suffix].
    rewrite <- (append_nil_r (String x p)) at 2.
    apply occurrences_self. }
  lia.
Qed.

(** The prompt is the basic text, then the transcript section when the
    snapshot is truthy. *)
Lemma generateSuperPrompt_transcript (spec : ProjectSpec) (t : string) :
  truthy (raw_transcript_snapshot spec) = Some t ->
  exists base,
    generateSuperPrompt spec = base ++ transcript_section t.
Proof.
  intros Ht. unfold generateSuperPrompt. rewrite Ht.
  eexists. unfold transcript_section.
  rewrite <- !append_assoc. reflexivity.
Qed.

(** The prompt splits at the end of its Requirements section. *)
Lemma generateSuperPrompt_split (spec : ProjectSpec) :
  generateSuperPrompt spec
  = ("Build a web application with the following specifications:" ++ nl
     ++ nl ++ "## Project Summary" ++ nl ++ project_summary spec ++ nl
     ++ nl ++ "## Tech Stack" ++ nl ++ tech_line (tech_stack spec) ++ nl
     ++ nl)
    ++ ("## Requirements" ++ nl
        ++ join nl (map (fun r => "- " ++ description r) (listed spec)) ++ nl)
    ++ after_requirements spec.
Proof.
  unfold generateSuperPrompt, after_requirements, listed, bullet.
  destruct (ui_preferences spec) as [ps|];
    [destruct (0 <? List.length ps)%nat|];
    destruct (truthy (raw_transcript_snapshot spec)) as [t|];
    rewrite ?append_nil_r; rewrite !append_assoc; reflexivity.
Qed.

Lemma after_requirements_start (spec : ProjectSpec) :
  exists rest,
    after_requirements spec = nl ++ "## UI/UX Preferences" ++ rest
    \/ after_requirements spec = nl ++ "Please start by scaffolding" ++ rest.
Proof.
  unfold after_requirements.
  destruct (ui_preferences spec) as [ps|];
    [destruct (0 <? List.length ps)%nat|].
  - eexists. left. rewrite !append_assoc. reflexivity.
  - eexists. right. reflexivity.
  - eexists. right. reflexivity.
Qed.

(** C1.  For every specification the Requirements section of the prompt of
    [generateSuperPrompt] is the heading followed by one item per listed
    requirement, where the listed requirements are exactly the requirements
    of the specification whose status is active, in the order of the
    collection; what follows the section is the UI/UX heading or the closing
    sentence.  No requirement whose status is superseded is listed, and its
    description is none of the items unless an active requirement has the
    same description. *)
Theorem generateSuperPrompt_lists_active_requirements (spec : ProjectSpec) :
  (exists before after rest,
      generateSuperPrompt spec
      = before
        ++ ("## Requirements" ++ nl
            ++ join nl (map (fun r => "- " ++ description r) (listed spec)) ++ nl)
        ++ after
      /\ before
         = "Build a web application with the following specifications:" ++ nl
           ++ nl ++ "## Project Summary" ++ nl ++ project_summary spec ++ nl
           ++ nl ++ "## Tech Stack" ++ nl ++ tech_line (tech_stack spec) ++ nl
           ++ nl
      /\ (after = nl ++ "## UI/UX Preferences" ++ rest
          \/ after = nl ++ "Please start by scaffolding" ++ rest))
  /\ listed spec = filter (fun r => negb (is_superseded r)) (requirements spec)
  /\ (forall r, In r (listed spec)
                <-> In r (requirements spec) /\ status r = active)
  /\ (forall r, status r = superseded -> ~ In r (listed spec))
  /\ (forall r, In r (requirements spec) -> status r = superseded ->
        (forall r', In r' (requirements spec) -> status r' = active ->
                    description r' <> description r) ->
        ~ In (description r) (map description (listed spec))).
Proof.
  split; [| split; [| split; [| split]]].
  - destruct (after_requirements_start spec) as [rest Hrest].
    exists ("Build a web application with the following specifications:" ++ nl
           ++ nl ++ "## Project Summary" ++ nl ++ project_summary spec ++ nl
           ++ nl ++ "## Tech Stack" ++ nl ++ tech_line (tech_stack spec) ++ nl
           ++ nl), (after_requirements spec), rest.
    split; [apply generateSuperPrompt_split | split; [reflexivity | exact Hrest]].
  - unfold listed. apply filter_ext. intros r.
    unfold is_active, is_superseded. now destruct (status r).
  - intros r. unfold listed. rewrite filter_In, status_is_active. tauto.
  - intros r Hs H. unfold listed in H. apply filter_In in H.
    destruct H as [_ H]. apply status_is_active in H. congruence.
  - intros r Hin Hs Hdiff H. apply in_map_iff in H.
    destruct H as [r' [Hd Hl]]. unfold listed in Hl. apply filter_In in Hl.
    destruct Hl as [Hin' Ha]. apply status_is_active in Ha.
    exact (Hdiff r' Hin' Ha Hd).
Qed.

(** The navbar that was superseded and asked for again: the description of
    the superseded requirement 1 stands in the Requirements section, as the
    item of the active requirement 3. *)
Lemma superseded_description_can_appear :
  PromptGenerator.generateSuperPrompt Samples.flip_flop_spec
  = ("Build a web application with the following specifications:" ++ nl
     ++ nl ++ "## Project Summary" ++ nl ++ "A dashboard for crypto tracking" ++ nl
     ++ nl ++ "## Tech Stack" ++ nl ++ "React" ++ nl ++ nl)
    ++ Samples.requirements_section Samples.flip_flop_spec
    ++ after_requirements Samples.flip_flop_spec
  /\ Samples.requirements_section Samples.flip_flop_spec
     = "## Requirements" ++ nl ++ "- Use navbar navigation" ++ nl
  /\ ~ (forall r,
          In r (requirements Samples.flip_flop_spec) ->
          status r = superseded ->
          occurrences (description r)
                      (Samples.requirements_section Samples.flip_flop_spec) = 0).
Proof.
  split; [reflexivity|]. split; [reflexivity|].
  intros H.
  specialize (H (mkRequirement 1 "Use navbar navigation" superseded None)
                (or_introl eq_refl) eq_refl).
  vm_compute in H. discriminate H.
Qed.

(** C9.  The Tech Stack section of the prompt of [generateSuperPrompt] holds
    the fixed fallback sentence when [tech_stack] is empty, and the entries
    joined by a comma and a blank otherwise. *)
Theorem generateSuperPrompt_tech_stack_section (spec : ProjectSpec) :
  exists section rest,
    generateSuperPrompt spec
    = "Build a web application with the following specifications:" ++ nl
      ++ nl ++ "## Project Summary" ++ nl ++ project_summary spec ++ nl
      ++ nl ++ "## Tech Stack" ++ nl ++ section ++ nl
      ++ nl ++ "## Requirements" ++ rest
    /\ section
       = match tech_stack spec with
         | [] => "Use modern best practices - suggest appropriate technologies"
         | _ :: _ => join ", " (tech_stack spec)
         end.
Proof.
  exists (tech_line (tech_stack spec)),
    (nl ++ join nl (map (fun r => "- " ++ description r) (listed spec)) ++ nl
     ++ after_requirements spec).
  split.
  - rewrite generateSuperPrompt_split, !append_assoc. reflexivity.
  - unfold tech_line. now destruct (tech_stack spec).
Qed.

Lemma truthy_nonempty (t : string) : t <> "" -> truthy (Some t) = Some t.
Proof.
  destruct t; [congruence | reflexivity].
Qed.

Lemma transcript_section_nonempty (t : string) :
  exists x p, transcript_section t = String x p.
Proof.
  unfold transcript_section. cbn [append]. eauto.
Qed.

(** C5.  When [raw_transcript_snapshot] is set and not empty, the prompt of
    [generateDetailedPrompt] holds the Raw Transcript Reference section,
    with the whole transcript, twice: the prompt of [generateSuperPrompt]
    that it embeds ends with the section, and the function appends the
    section once more at the end. *)
Theorem generateDetailedPrompt_transcript_twice (spec : ProjectSpec) (t : string) :
  raw_transcript_snapshot spec = Some t ->
  t <> "" ->
  exists base mid,
    generateSuperPrompt spec = base ++ transcript_section t
    /\ generateDetailedPrompt spec
       = (base ++ transcript_section t) ++ mid ++ transcript_section t
    /\ 2 <= occurrences (transcript_section t) (generateDetailedPrompt spec).
Proof.
  intros Hraw Hne.
  assert (Ht : truthy (raw_transcript_snapshot spec) = Some t)
    by (rewrite Hraw; now apply truthy_nonempty).
  destruct (generateSuperPrompt_transcript spec t Ht) as [base Hbase].
  assert (Hd : exists mid,
             generateDetailedPrompt spec
             = (base ++ transcript_section t) ++ mid ++ transcript_section t).
  { unfold generateDetailedPrompt. rewrite Ht, Hbase.
    destruct (0 <? List.length (filter is_superseded (requirements spec)))%nat.
    - exists (nl ++ nl ++ "## Historical Context (Changed Requirements)" ++ nl
              ++ "The following requirements were initially discussed but later changed:"
              ++ nl
              ++ join nl (map (fun r => struck (description r))
                              (filter is_superseded (requirements spec)))
              ++ nl ++ nl).
      unfold transcript_section at 3.
      rewrite !append_assoc. reflexivity.
    - exists nl. unfold transcript_section at 3.
      rewrite !append_assoc. reflexivity. }
  destruct Hd as [mid Hmid].
  exists base, mid. split; [exact Hbase | split; [exact Hmid |]].
  rewrite Hmid, append_assoc.
  destruct (transcript_section_nonempty t) as [x [p ->]].
  apply occurrences_twice.
Qed.

Lemma generateDetailedPrompt_transcript_twice_witness :
  raw_transcript_snapshot readme_spec
  = Some " we need a dashboard for crypto tracking"
  /\ " we need a dashboard for crypto tracking" <> ""
  /\ exists base mid,
       generateSuperPrompt readme_spec
       = base ++ transcript_section " we need a dashboard for crypto tracking"
       /\ generateDetailedPrompt readme_spec
          = (base ++ transcript_section " we need a dashboard for crypto tracking")
            ++ mid
            ++ transcript_section " we need a dashboard for crypto tracking"
       /\ 2 <= occurrences
                 (transcript_section " we need a dashboard for crypto tracking")
                 (generateDetailedPrompt readme_spec).
Proof.
  split; [reflexivity|]. split; [discriminate|].
  apply (generateDetailedPrompt_transcript_twice readme_spec);
    [reflexivity | discriminate].
Defined.

(** C10.  [copyToClipboardAndRedirect] never throws.  For every prompt, tool
    and browser state it returns a result: when the clipboard write succeeds
    the result is a success whose message names the tool, the prompt is on
    the clipboard and the tool's page was opened; when the write throws it is
    a failure with the fixed message and nothing was opened. *)
Theorem copyToClipboardAndRedirect_never_throws
    (prompt : string) (tool : AgenticTool) (w : World) :
  exists r w',
    copyToClipboardAndRedirect prompt tool w = (Returned r, w')
    /\ match clipboard_fault w with
       | None =>
           r = mkCopyResult true
                 ("Prompt copied! Opening " ++ TOOL_NAMES tool ++ "...")
           /\ clipboard w' = Some prompt
           /\ opened w' = (opened w ++ [(TOOL_URLS tool, "_blank")])%list
       | Some _ =>
           r = mkCopyResult false
                 "Failed to copy to clipboard. Please try again."
           /\ clipboard w' = clipboard w
           /\ opened w' = opened w
       end.
Proof.
  unfold copyToClipboardAndRedirect, try_catch, bind, clipboard_writeText,
    window_open, console_error, ret.
  destruct (clipboard_fault w) as [e|] eqn:E; cbn; rewrite ?E;
    do 2 eexists; (split; [reflexivity|]); cbn; rewrite ?E; auto.
Qed.

(** The messages of the four tools. *)
Example copy_messages :
  map (fun tool => "Prompt copied! Opening " ++ TOOL_NAMES tool ++ "...")
      [lovable; bolt; replit; v0]
  = [ "Prompt copied! Opening Lovable...";
      "Prompt copied! Opening Bolt.new...";
      "Prompt copied! Opening Replit Agent...";
      "Prompt copied! Opening v0 by Vercel..." ].
Proof. reflexivity. Qed.

End PromptGeneratorSpec.

(** ** The transcript accumulator *)

Lemma fold_spaced (chunks : list string) (prev : string) :
  fold_left (fun prev data => prev ++ " " ++ data) chunks prev
  = prev ++ match chunks with
            | [] => ""
            | _ :: _ => " " ++ join " " chunks
            end.
Proof.
  revert prev. induction chunks as [|d l IH]; intros prev.
  - now rewrite append_nil_r.
  - cbn [fold_left]. rewrite IH. destruct l as [|x l].
    + now rewrite append_nil_r.
    + unfold join. cbn [String.concat]. now rewrite !append_assoc.
Qed.

Lemma spaced_join (chunks : list string) :
  spaced chunks
  = match chunks with
    | [] => ""
    | _ :: _ => " " ++ join " " chunks
    end.
Proof.
  unfold spaced. now rewrite fold_spaced.
Qed.

Lemma spaced_snoc (chunks : list string) (data : string) :
  spaced (chunks ++ [data]) = spaced chunks ++ " " ++ data.
Proof.
  unfold spaced. now rewrite fold_left_app.
Qed.

Module SidePanelSpec.
Import SidePanel.

Lemma panel_stopCapture_projectSpec (stream0 : option MediaStream) (s : State) :
  projectSpec (stopCapture stream0 s) = projectSpec s.
Proof.
  unfold stopCapture.
  destruct (recorder_running (mediaRecorderRef s)); cbn;
    destruct stream0; cbn;
    destruct (is_open (socketRef s)); reflexivity.
Qed.

Lemma panel_stopCapture_fullTranscript
    (stream0 : option MediaStream) (s : State) :
  _fullTranscript (stopCapture stream0 s) = _fullTranscript s.
Proof.
  unfold stopCapture.
  destruct (recorder_running (mediaRecorderRef s)); cbn;
    destruct stream0; cbn;
    destruct (is_open (socketRef s)); reflexivity.
Qed.

Lemma panel_startCapture_catch_frame (s : State) :
  projectSpec (startCapture_catch s) = projectSpec s
  /\ _fullTranscript (startCapture_catch s) = _fullTranscript s.
Proof.
  unfold startCapture_catch.
  destruct (recorder_running (mediaRecorderRef s)); cbn;
    destruct (socketRef s); cbn; auto.
Qed.

Ltac catch_frame :=
  repeat match goal with
         | |- context [projectSpec (startCapture_catch ?s)] =>
             rewrite (proj1 (panel_startCapture_catch_frame s))
         | |- context [_fullTranscript (startCapture_catch ?s)] =>
             rewrite (proj2 (panel_startCapture_catch_frame s))
         end.

Lemma panel_startCapture_resets (env : CaptureEnv) (s : State) :
  projectSpec (startCapture env s)
  = (if begins_session env s then None else projectSpec s)
  /\ _fullTranscript (startCapture env s)
     = (if begins_session env s then "" else _fullTranscript s).
Proof.
  unfold startCapture, begins_session.
  destruct (displayMedia env) as [[m [|]]|]; cbn [negb];
    [| split; reflexivity | catch_frame; split; reflexivity].
  change (socketRef (setStatus Connected s)) with (socketRef s).
  destruct (is_open (socketRef s)); cbn [orb].
  - destruct (recorderStarts env); catch_frame; split; reflexivity.
  - destruct (backend env).
    + destruct (recorderStarts env); catch_frame; split; reflexivity.
    + destruct (ConnStatus_eqb (status s) Disconnected);
        catch_frame; split; reflexivity.
Qed.

Lemma panel_onmessage_projectSpec (m : option ServerMessage) (s : State) :
  projectSpec (onmessage m s)
  = match m with
    | Some (msg_project_spec data) => Some data
    | _ => projectSpec s
    end.
Proof.
  destruct m as [[d|c|d|t]|]; reflexivity.
Qed.

Lemma panel_onmessage_fullTranscript (m : option ServerMessage) (s : State) :
  _fullTranscript (onmessage m s)
  = match m with
    | Some (msg_transcript data) => _fullTranscript s ++ " " ++ data
    | _ => _fullTranscript s
    end.
Proof.
  destruct m as [[d|c|d|t]|]; reflexivity.
Qed.

Lemma panel_run_fullTranscript (es : list Event) :
  forall (s : State) (acc : list string),
    _fullTranscript s = spaced acc ->
    _fullTranscript (run s es) = spaced (chunks_since_start s es acc).
Proof.
  induction es as [|e es IH]; intros s acc Hacc; [exact Hacc|].
  cbn [run fold_left chunks_since_start]. apply IH.
  destruct e as [m| |st0|env|sm0|text]; cbn [step].
  - rewrite panel_onmessage_fullTranscript.
    destruct m as [[d|c|d|t]|]; try exact Hacc.
    now rewrite spaced_snoc, Hacc.
  - exact Hacc.
  - unfold onerror. now destruct (ConnStatus_eqb st0 Disconnected).
  - rewrite (proj2 (panel_startCapture_resets env s)).
    now destruct (begins_session env s).
  - now rewrite panel_stopCapture_fullTranscript.
  - exact Hacc.
Qed.

End SidePanelSpec.

Module DashboardSpec.
Import Dashboard.

Lemma dashboard_stopCapture_projectSpec
    (stream0 : option MediaStream) (s : State) :
  projectSpec (stopCapture stream0 s) = projectSpec s.
Proof.
  unfold stopCapture.
  destruct (recorder_running (mediaRecorderRef s)); cbn;
    destruct stream0; cbn;
    destruct (is_open (socketRef s)); reflexivity.
Qed.

Lemma dashboard_stopCapture_fullTranscript
    (stream0 : option MediaStream) (s : State) :
  _fullTranscript (stopCapture stream0 s) = _fullTranscript s.
Proof.
  unfold stopCapture.
  destruct (recorder_running (mediaRecorderRef s)); cbn;
    destruct stream0; cbn;
    destruct (is_open (socketRef s)); reflexivity.
Qed.

Lemma dashboard_startCapture_catch_frame (s : State) :
  projectSpec (startCapture_catch s) = projectSpec s
  /\ _fullTranscript (startCapture_catch s) = _fullTranscript s.
Proof.
  unfold startCapture_catch.
  destruct (recorder_running (mediaRecorderRef s)); cbn;
    destruct (socketRef s); cbn; auto.
Qed.

Ltac catch_frame :=
  repeat match goal with
         | |- context [projectSpec (startCapture_catch ?s)] =>
             rewrite (proj1 (dashboard_startCapture_catch_frame s))
         | |- context [_fullTranscript (startCapture_catch ?s)] =>
             rewrite (proj2 (dashboard_startCapture_catch_frame s))
         end.

Lemma dashboard_startCapture_resets (env : CaptureEnv) (s : State) :
  projectSpec (startCapture env s)
  = (if begins_session env s then None else projectSpec s)
  /\ _fullTranscript (startCapture env s)
     = (if begins_session env s then "" else _fullTranscript s).
Proof.
  unfold startCapture, begins_session.
  destruct (displayMedia env) as [[m [|]]|]; cbn [negb];
    [| split; reflexivity | catch_frame; split; reflexivity].
  change (socketRef (setStatus Connected s)) with (socketRef s).
  destruct (is_open (socketRef s)); cbn [orb].
  - destruct (recorderStarts env); catch_frame; split; reflexivity.
  - destruct (backend env).
    + destruct (recorderStarts env); catch_frame; split; reflexivity.
    + destruct (ConnStatus_eqb (status s) Disconnected);
        catch_frame; split; reflexivity.
Qed.

Lemma dashboard_onmessage_projectSpec (m : option ServerMessage) (s : State) :
  projectSpec (onmessage m s)
  = match m with
    | Some (msg_project_spec data) => Some data
    | _ => projectSpec s
    end.
Proof.
  destruct m as [[d|c|d|t]|]; reflexivity.
Qed.

Lemma dashboard_onmessage_fullTranscript (m : option ServerMessage) (s : State) :
  _fullTranscript (onmessage m s)
  = match m with
    | Some (msg_transcript data) => _fullTranscript s ++ " " ++ data
    | _ => _fullTranscript s
    end.
Proof.
  destruct m as [[d|c|d|t]|]; reflexivity.
Qed.

Lemma dashboard_run_fullTranscript (es : list Event) :
  forall (s : State) (acc : list string),
    _fullTranscript s = spaced acc ->
    _fullTranscript (run s es) = spaced (chunks_since_start s es acc).
Proof.
  induction es as [|e es IH]; intros s acc Hacc; [exact Hacc|].
  cbn [run fold_left chunks_since_start]. apply IH.
  destruct e as [m| |st0|env|sm0|text]; cbn [step].
  - rewrite dashboard_onmessage_fullTranscript.
    destruct m as [[d|c|d|t]|]; try exact Hacc.
    now rewrite spaced_snoc, Hacc.
  - exact Hacc.
  - unfold onerror. now destruct (ConnStatus_eqb st0 Disconnected).
  - rewrite (proj2 (dashboard_startCapture_resets env s)).
    now destruct (begins_session env s).
  - now rewrite dashboard_stopCapture_fullTranscript.
  - exact Hacc.
Qed.

End DashboardSpec.

(** ** The session state of the two front ends *)

(** C6.  [stopCapture] leaves [projectSpec] as it was, in the side panel and
    on the landing page, so the prompt offered by the build button is still
    the same; [startCapture] sets it to null exactly when it gets as far as
    beginning a session, and no other handler turns a committed
    specification into null. *)
Theorem stopCapture_preserves_projectSpec :
  (forall stream0 s,
      SidePanel.projectSpec (SidePanel.stopCapture stream0 s)
      = SidePanel.projectSpec s)
  /\ (forall stream0 s,
        Dashboard.projectSpec (Dashboard.stopCapture stream0 s)
        = Dashboard.projectSpec s)
  /\ (forall stream0 s,
        SidePanel.handleBuildProject_prompt (SidePanel.stopCapture stream0 s)
        = SidePanel.handleBuildProject_prompt s)
  /\ (forall env s,
        SidePanel.projectSpec (SidePanel.startCapture env s)
        = if SidePanel.begins_session env s then None
          else SidePanel.projectSpec s)
  /\ (forall env s,
        Dashboard.projectSpec (Dashboard.startCapture env s)
        = if Dashboard.begins_session env s then None
          else Dashboard.projectSpec s)
  /\ (forall s e,
        SidePanel.projectSpec s <> None ->
        SidePanel.projectSpec (SidePanel.step s e) = None ->
        exists env, e = SidePanel.ev_startCapture env
                    /\ SidePanel.begins_session env s = true)
  /\ (forall s e,
        Dashboard.projectSpec s <> None ->
        Dashboard.projectSpec (Dashboard.step s e) = None ->
        exists env, e = Dashboard.ev_startCapture env
                    /\ Dashboard.begins_session env s = true).
Proof.
  split; [exact SidePanelSpec.panel_stopCapture_projectSpec|].
  split; [exact DashboardSpec.dashboard_stopCapture_projectSpec|].
  split.
  { intros stream0 s. unfold SidePanel.handleBuildProject_prompt.
    now rewrite SidePanelSpec.panel_stopCapture_projectSpec,
      SidePanelSpec.panel_stopCapture_fullTranscript. }
  split; [intros env s; apply SidePanelSpec.panel_startCapture_resets|].
  split; [intros env s; apply DashboardSpec.dashboard_startCapture_resets|].
  split.
  - intros s [m| |st0|env|sm0|text] Hs; cbn [SidePanel.step]; intros H.
    + rewrite SidePanelSpec.panel_onmessage_projectSpec in H.
      destruct m as [[d|c|d|t]|]; congruence.
    + now elim Hs.
    + unfold SidePanel.onerror in H.
      destruct (ConnStatus_eqb st0 Disconnected); now elim Hs.
    + exists env. split; [reflexivity|].
      rewrite (proj1 (SidePanelSpec.panel_startCapture_resets env s)) in H.
      destruct (SidePanel.begins_session env s); congruence.
    + rewrite SidePanelSpec.panel_stopCapture_projectSpec in H. congruence.
    + now elim Hs.
  - intros s [m| |st0|env|sm0|text] Hs; cbn [Dashboard.step]; intros H.
    + rewrite DashboardSpec.dashboard_onmessage_projectSpec in H.
      destruct m as [[d|c|d|t]|]; congruence.
    + now elim Hs.
    + unfold Dashboard.onerror in H.
      destruct (ConnStatus_eqb st0 Disconnected); now elim Hs.
    + exists env. split; [reflexivity|].
      rewrite (proj1 (DashboardSpec.dashboard_startCapture_resets env s)) in H.
      destruct (Dashboard.begins_session env s); congruence.
    + rewrite DashboardSpec.dashboard_stopCapture_projectSpec in H. congruence.
    + now elim Hs.
Qed.

(** C7.  From the mounting of the component on, after any sequence of
    events, the full transcript is the chunks received since the session in
    progress began, laid end to end in the order received with one blank
    before each chunk.  A transcript message appends its chunk after what was
    accumulated, and no other message changes the full transcript. *)
Theorem fullTranscript_is_all_chunks :
  (forall es,
      SidePanel._fullTranscript (SidePanel.run SidePanel.initial es)
      = spaced (SidePanel.chunks_since_start SidePanel.initial es []))
  /\ (forall es,
        Dashboard._fullTranscript (Dashboard.run Dashboard.initial es)
        = spaced (Dashboard.chunks_since_start Dashboard.initial es []))
  /\ (forall chunks,
        spaced chunks
        = match chunks with
          | [] => ""
          | _ :: _ => " " ++ join " " chunks
          end)
  /\ (forall m s,
        SidePanel._fullTranscript (SidePanel.onmessage m s)
        = match m with
          | Some (msg_transcript data) =>
              SidePanel._fullTranscript s ++ " " ++ data
          | _ => SidePanel._fullTranscript s
          end)
  /\ (forall m s,
        Dashboard._fullTranscript (Dashboard.onmessage m s)
        = match m with
          | Some (msg_transcript data) =>
              Dashboard._fullTranscript s ++ " " ++ data
          | _ => Dashboard._fullTranscript s
          end).
Proof.
  split; [intros es; now apply SidePanelSpec.panel_run_fullTranscript|].
  split; [intros es; now apply DashboardSpec.dashboard_run_fullTranscript|].
  split; [exact spaced_join|].
  split.
  - exact SidePanelSpec.panel_onmessage_fullTranscript.
  - exact DashboardSpec.dashboard_onmessage_fullTranscript.
Qed.

(** C8.  Handling a [project_spec] message stores the delivered
    specification and sets the word counter shown to the user to zero,
    whatever the counter was. *)
Theorem project_spec_message_resets_word_count
    (data : ProjectSpec) (s : SidePanel.State) :
  SidePanel.wordCountProgress
    (SidePanel.onmessage (Some (msg_project_spec data)) s) = 0
  /\ SidePanel.projectSpec
       (SidePanel.onmessage (Some (msg_project_spec data)) s) = Some data.
Proof.
  split; reflexivity.
Qed.

(** ** The Reconciliation Engine *)

Lemma StronglySorted_seq (a n : nat) : StronglySorted lt (seq a n).
Proof.
  revert a. induction n as [|n IH]; intros a; cbn; constructor.
  - apply IH.
  - apply Forall_forall. intros x Hx. apply in_seq in Hx. lia.
Qed.

Module ReconciliationSpec.
Import Reconciliation.

(** The navigation scenario, computed. *)
Example sidebar_scenario :
  requirements (committed sidebar_session)
  = [ mkRequirement 1 "Dark mode UI" active None;
      mkRequirement 2 "Show live prices" active None;
      mkRequirement 3 "Use navbar navigation" superseded None;
      mkRequirement 4 "Use sidebar navigation" active (Some 3) ]
  /\ next_id sidebar_session = 5
  /\ tech_stack (committed sidebar_session) = ["React"; "Tailwind"; "Lucide Icons"].
Proof. vm_compute. repeat split. Qed.

Lemma supersede_ids (k : nat) (reqs : list Requirement) :
  map id (supersede k reqs) = map id reqs.
Proof.
  unfold supersede. rewrite map_map. apply map_ext.
  intros r. now destruct (id r =? k)%nat.
Qed.





Lemma supersede_In (k : nat) (reqs : list Requirement) (r : Requirement) :
  In r (supersede k reqs) ->
  exists r0,
    In r0 reqs
    /\ id r = id r0
    /\ supersedes r = supersedes r0
    /\ (id r0 = k -> status r = superseded)
    /\ (status r0 = superseded -> status r = superseded).
Proof.
  unfold supersede. intros H. apply in_map_iff in H.
  destruct H as [r0 [E Hin]]. exists r0. split; [exact Hin|].
  destruct (id r0 =? k)%nat eqn:Ek; subst r; cbn.
  - repeat split; auto.
  - apply Nat.eqb_neq in Ek. repeat split; auto. intros; contradiction.
Qed.

Section Engine.

Variable Hint : Type.
Variable hint_matches : Hint -> Requirement -> bool.
Variable text_match : string -> string -> bool.

Local Abbreviation process := (process_requirement Hint hint_matches text_match).
Local Abbreviation reconcile' := (reconcile Hint hint_matches text_match).
Local Abbreviation run' := (run Hint hint_matches text_match).

(** One candidate requirement allocates no identifier or the next one. *)
Lemma process_requirement_ids (reqs : list Requirement) (next : nat)
    (c : CandidateRequirement Hint) :
  exists n,
    map id (fst (process (reqs, next) c)) = (map id reqs ++ seq next n)%list
    /\ snd (process (reqs, next) c) = next + n.
Proof.
  unfold process_requirement.
  destruct (match c_hint c with
            | Some h => resolve Hint hint_matches h reqs
            | None => None
            end) as [old|].
  - exists 1. cbn [fst snd]. rewrite map_app, supersede_ids. cbn. split; [reflexivity | lia].
  - destruct (restated text_match (c_description c) reqs).
    + exists 0. cbn. rewrite app_nil_r. split; [reflexivity | lia].
    + exists 1. cbn [fst snd]. rewrite map_app. cbn. split; [reflexivity | lia].
Qed.

Lemma fold_process_ids (cs : list (CandidateRequirement Hint)) :
  forall (reqs : list Requirement) (next : nat),
  exists n,
    map id (fst (fold_left process cs (reqs, next)))
    = (map id reqs ++ seq next n)%list
    /\ snd (fold_left process cs (reqs, next)) = next + n.
Proof.
  induction cs as [|c cs IH]; intros reqs next.
  - exists 0. cbn. rewrite app_nil_r. split; [reflexivity | lia].
  - cbn [fold_left].
    destruct (process_requirement_ids reqs next c) as [n1 [E1 N1]].
    destruct (process (reqs, next) c) as [reqs1 next1]. cbn [fst snd] in E1, N1.
    destruct (IH reqs1 next1) as [n2 [E2 N2]].
    exists (n1 + n2). rewrite E2, N2, E1, N1.
    rewrite <- app_assoc, seq_app. split; [reflexivity | lia].
Qed.

Lemma reconcile_ids (s : Session) (c : CandidateSpecification Hint) :
  exists n,
    ids (reconcile' s c) = (ids s ++ seq (next_id s) n)%list
    /\ next_id (reconcile' s c) = next_id s + n.
Proof.
  unfold reconcile, ids.
  destruct (fold_process_ids (c_requirements c)
              (requirements (committed s)) (next_id s)) as [n [E N]].
  destruct (fold_left process (c_requirements c)
              (requirements (committed s), next_id s)) as [reqs next].
  exists n. cbn in *. split; assumption.
Qed.

Lemma run_ids (cycles : list (option (CandidateSpecification Hint))) :
  forall s : Session,
  exists n,
    ids (run' s cycles) = (ids s ++ seq (next_id s) n)%list
    /\ next_id (run' s cycles) = next_id s + n.
Proof.
  induction cycles as [|x cycles IH]; intros s.
  - exists 0. cbn. rewrite app_nil_r. split; [reflexivity | lia].
  - cbn [run fold_left].
    assert (H1 : exists n, ids (cycle Hint hint_matches text_match s x)
                           = (ids s ++ seq (next_id s) n)%list
                           /\ next_id (cycle Hint hint_matches text_match s x)
                              = next_id s + n).
    { destruct x as [c|]; cbn [cycle].
      - apply reconcile_ids.
      - exists 0. cbn. rewrite app_nil_r. split; [reflexivity | lia]. }
    destruct H1 as [n1 [E1 N1]].
    destruct (IH (cycle Hint hint_matches text_match s x)) as [n2 [E2 N2]].
    exists (n1 + n2). unfold run in E2, N2. rewrite E2, N2, E1, N1.
    rewrite <- app_assoc, seq_app. split; [reflexivity | lia].
Qed.

(** *** What a hint resolves to *)



Lemma resolve_fold_some (h : Hint) (reqs : list Requirement) :
  forall best old,
    fold_left
      (fun best r =>
         if is_active r && hint_matches h r then prefer best r else best)
      reqs best = Some old ->
    best = Some old
    \/ (In old reqs /\ is_active old = true /\ hint_matches h old = true).
Proof.
  induction reqs as [|r reqs IH]; intros best old; cbn [fold_left].
  - now left.
  - intros H. apply IH in H. destruct H as [H|[H1 H2]].
    + destruct (is_active r && hint_matches h r) eqn:E; [|now left].
      apply andb_true_iff in E.
      unfold prefer in H. destruct best as [b|].
      * destruct (id b <? id r)%nat; inversion H; subst.
        -- right. split; [now left | exact E].
        -- now left.
      * inversion H; subst. right. split; [now left | exact E].
    + right. split; [now right | exact H2].
Qed.

Lemma resolve_some (h : Hint) (reqs : list Requirement) (old : Requirement) :
  resolve Hint hint_matches h reqs = Some old ->
  In old reqs /\ is_active old = true /\ hint_matches h old = true.
Proof.
  intros H. apply resolve_fold_some in H. destruct H as [H|H]; [discriminate | exact H].
Qed.

(** *** Re-stated requirements change nothing *)





(** *** Identifiers along supersession links *)

Lemma below_weaken (next next' : nat) (r : Requirement) :
  next <= next' -> below next r -> below next' r.
Proof.
  intros Hle [H1 H2]. split; [lia | exact H2].
Qed.

Lemma process_requirement_below (reqs : list Requirement) (next : nat)
    (c : CandidateRequirement Hint) :
  Forall (below next) reqs ->
  Forall (below (snd (process (reqs, next) c))) (fst (process (reqs, next) c)).
Proof.
  intros H. unfold process_requirement.
  destruct (match c_hint c with
            | Some h => resolve Hint hint_matches h reqs
            | None => None
            end) as [old|] eqn:E.
  - cbn [fst snd]. apply Forall_app. split.
    + apply Forall_forall. intros r Hr. apply supersede_In in Hr.
      destruct Hr as (r0 & Hin & Eid & Es & _).
      rewrite Forall_forall in H. destruct (H r0 Hin) as [H1 H2].
      split; [lia | intros k Hk; rewrite Eid; apply H2; congruence].
    + constructor; [| constructor]. split; cbn; [lia|].
      intros k Hk. inversion Hk; subst k.
      destruct (c_hint c) as [h|]; [| discriminate E].
      apply resolve_some in E. destruct E as [Hin _].
      rewrite Forall_forall in H. now destruct (H old Hin).
  - destruct (restated text_match (c_description c) reqs); cbn [fst snd];
      [exact H|].
    apply Forall_app. split.
    + eapply Forall_impl; [| exact H]. intros r. apply below_weaken. lia.
    + constructor; [| constructor]. split; cbn; [lia | discriminate].
Qed.

Lemma fold_process_below (cs : list (CandidateRequirement Hint)) :
  forall reqs next,
    Forall (below next) reqs ->
    Forall (below (snd (fold_left process cs (reqs, next))))
           (fst (fold_left process cs (reqs, next))).
Proof.
  induction cs as [|c cs IH]; intros reqs next H; [exact H|].
  cbn [fold_left]. pose proof (process_requirement_below reqs next c H) as H1.
  destruct (process (reqs, next) c) as [reqs1 next1]. now apply IH.
Qed.

Lemma run_below (cycles : list (option (CandidateSpecification Hint))) :
  forall s,
    Forall (below (next_id s)) (requirements (committed s)) ->
    Forall (below (next_id (run' s cycles)))
           (requirements (committed (run' s cycles))).
Proof.
  induction cycles as [|x cycles IH]; intros s H; [exact H|].
  cbn [run fold_left]. apply IH.
  destruct x as [c|]; cbn [cycle]; [| exact H].
  unfold reconcile.
  pose proof (fold_process_below (c_requirements c) _ _ H) as H1.
  destruct (fold_left process (c_requirements c)
              (requirements (committed s), next_id s)) as [reqs next].
  exact H1.
Qed.

(** C3.  Whatever the hints and the textual match are, and whatever cycles
    a session goes through (failed extractions included), the identifiers of
    the committed requirements, read in the order of assignment, are
    strictly increasing and without repetition; the cycles that come later
    only add identifiers at the end, each of them at least the counter
    reached before, hence above every identifier assigned earlier.  Along a
    supersession link the identifier grows too: a requirement that
    supersedes another one has the larger identifier. *)
Theorem assigned_ids_strictly_increasing
    (earlier later : list (option (CandidateSpecification Hint))) :
  let s1 := run' initial earlier in
  let s2 := run' s1 later in
  exists fresh,
    ids s2 = (ids s1 ++ fresh)%list
    /\ Forall (fun i => next_id s1 <= i) fresh
    /\ Forall (fun i => i < next_id s1) (ids s1)
    /\ Forall (fun i => i < next_id s2) (ids s2)
    /\ StronglySorted lt (ids s2)
    /\ NoDup (ids s2)
    /\ Forall (fun r => forall k, supersedes r = Some k -> k < id r)
              (requirements (committed s2)).
Proof.
  intros s1 s2.
  assert (Hb : Forall (below (next_id s2)) (requirements (committed s2))).
  { apply run_below, run_below. constructor. }
  destruct (run_ids earlier initial) as [n1 [E1 N1]].
  destruct (run_ids later s1) as [n2 [E2 N2]].
  fold s1 in E1, N1. fold s2 in E2, N2.
  change (ids initial) with (@nil nat) in E1.
  change (next_id initial) with 1 in E1, N1. cbn [app] in E1.
  assert (E : ids s2 = seq 1 (n1 + n2)).
  { rewrite E2, E1, N1. symmetry. apply seq_app. }
  exists (seq (next_id s1) n2).
  split; [exact E2|].
  split; [apply Forall_forall; intros i Hi; apply in_seq in Hi; lia|].
  split; [rewrite E1; apply Forall_forall; intros i Hi; apply in_seq in Hi; lia|].
  split; [rewrite E; apply Forall_forall; intros i Hi; apply in_seq in Hi; lia|].
  rewrite E. split; [apply StronglySorted_seq|]. split; [apply seq_NoDup|].
  eapply Forall_impl; [| exact Hb]. now intros r [_ H].
Qed.

End Engine.

(** *** Engines whose hints echo identifiers *)

Section IdEcho.

Variable text_match : string -> string -> bool.

Local Abbreviation process := (process_requirement nat id_hint text_match).







End IdEcho.




End ReconciliationSpec.

(* ================================================================== *)
(** * Further properties of the front-end code *)
(* ================================================================== *)

Lemma length_append (a b : string) :
  String.length (a ++ b) = String.length a + String.length b.
Proof.
  induction a as [|x a IH]; cbn; [reflexivity | now rewrite IH].
Qed.

Lemma append_eq_self (a x : string) : a ++ x = a -> x = "".
Proof.
  intros H. apply (f_equal String.length) in H. rewrite length_append in H.
  destruct x; [reflexivity | cbn in H; lia].
Qed.

Lemma append_inv_head (a x y : string) : a ++ x = a ++ y -> x = y.
Proof.
  induction a as [|c a IH]; cbn; intros H; [exact H|].
  inversion H. now apply IH.
Qed.

Module PromptGeneratorMore.
Import PromptGenerator PromptGeneratorSpec.

(** ** What the prompts read of a specification *)

(** X1.  The prompt of [generateSuperPrompt] reads the requirements only through
    the descriptions of the active ones: two specifications with the same
    summary, technologies, preferences and snapshot whose active
    requirements carry the same descriptions in the same order give the same
    prompt, whatever the identifiers, the supersession links and the
    superseded requirements are. *)
Theorem generateSuperPrompt_reads_active_descriptions (s1 s2 : ProjectSpec) :
  project_summary s1 = project_summary s2 ->
  tech_stack s1 = tech_stack s2 ->
  ui_preferences s1 = ui_preferences s2 ->
  raw_transcript_snapshot s1 = raw_transcript_snapshot s2 ->
  map description (filter is_active (requirements s1))
  = map description (filter is_active (requirements s2)) ->
  generateSuperPrompt s1 = generateSuperPrompt s2.
Proof.
  intros Hs Ht Hu Hr Hd.
  rewrite !generateSuperPrompt_split. unfold after_requirements, listed.
  rewrite Hs, Ht, Hu, Hr.
  rewrite <- (map_map description (fun d => "- " ++ d)
                      (filter is_active (requirements s1))).
  rewrite <- (map_map description (fun d => "- " ++ d)
                      (filter is_active (requirements s2))).
  now rewrite Hd.
Qed.

Lemma generateSuperPrompt_reads_active_descriptions_witness :
  project_summary readme_spec = project_summary Samples.renumbered_spec
  /\ map description (filter is_active (requirements readme_spec))
     = map description (filter is_active (requirements Samples.renumbered_spec))
  /\ requirements readme_spec <> requirements Samples.renumbered_spec
  /\ generateSuperPrompt readme_spec
     = generateSuperPrompt Samples.renumbered_spec.
Proof.
  split; [reflexivity|]. split; [reflexivity|]. split; [discriminate|].
  apply (generateSuperPrompt_reads_active_descriptions
           readme_spec Samples.renumbered_spec); reflexivity.
Defined.

(** ** The detailed prompt against the basic one *)

(** The text [generateDetailedPrompt] adds to the basic prompt. *)
Lemma generateDetailedPrompt_added (spec : ProjectSpec) :
  generateDetailedPrompt spec
  = generateSuperPrompt spec
    ++ (if (0 <? List.length (filter is_superseded (requirements spec)))%nat
        then nl ++ nl ++ "## Historical Context (Changed Requirements)" ++ nl
             ++ "The following requirements were initially discussed but later changed:"
             ++ nl
             ++ join nl (map (fun r => "- ~~" ++ description r ++ "~~")
                             (filter is_superseded (requirements spec)))
             ++ nl
        else "")
    ++ match truthy (raw_transcript_snapshot spec) with
       | Some t => nl ++ transcript_section t
       | None => ""
       end.
Proof.
  unfold generateDetailedPrompt, transcript_section, struck.
  destruct (0 <? List.length (filter is_superseded (requirements spec)))%nat;
    destruct (truthy (raw_transcript_snapshot spec)) as [t|];
    rewrite ?append_nil_r, ?append_assoc; reflexivity.
Qed.

(** X2.  The basic prompt is always the beginning of the detailed prompt, and the
    two are equal exactly when no requirement is superseded and there is no
    transcript to append. *)
Theorem generateDetailedPrompt_extends_generateSuperPrompt (spec : ProjectSpec) :
  prefix (generateSuperPrompt spec) (generateDetailedPrompt spec) = true
  /\ (generateDetailedPrompt spec = generateSuperPrompt spec
      <-> filter is_superseded (requirements spec) = []
          /\ truthy (raw_transcript_snapshot spec) = None).
Proof.
  rewrite generateDetailedPrompt_added. split; [apply prefix_append|].
  split.
  - intros H. apply append_eq_self in H.
    destruct (filter is_superseded (requirements spec)) as [|r l];
      destruct (truthy (raw_transcript_snapshot spec)) as [t|];
      cbn in H; try discriminate H; split; reflexivity.
  - intros [-> ->]. cbn. now rewrite append_nil_r.
Qed.


(** ** The downloaded file *)

Lemma before_T_date (date rest : string) :
  (forall n, get n date <> Some "T"%char) ->
  before_T (date ++ "T" ++ rest) = date.
Proof.
  change ("T" ++ rest) with (String "T"%char rest).
  induction date as [|c date IH]; intros H; [reflexivity|].
  cbn [append before_T]. destruct (Ascii.eqb c "T") eqn:E.
  - apply Ascii.eqb_eq in E. subst c. now elim (H 0).
  - rewrite IH; [reflexivity|]. intros n. exact (H (S n)).
Qed.

(** X4.  [downloadPromptAsFile] never throws and offers exactly one file more:
    its name is [devdraft-spec-] followed by the date part of the ISO
    instant (the text before the first [T]) and [.md], its content is the
    detailed prompt; the clipboard, the opened pages and the console are
    left alone. *)
Theorem downloadPromptAsFile_offers_dated_file
    (spec : ProjectSpec) (w : World) (date time : string) :
  now_iso w = date ++ "T" ++ time ->
  (forall n, get n date <> Some "T"%char) ->
  exists w',
    downloadPromptAsFile spec w = (Returned tt, w')
    /\ downloads w'
       = (downloads w
          ++ [(("devdraft-spec-" ++ date ++ ".md")%string,
              generateDetailedPrompt spec)])%list
    /\ clipboard w' = clipboard w
    /\ opened w' = opened w
    /\ console w' = console w
    /\ now_iso w' = now_iso w.
Proof.
  intros Hnow Hdate.
  unfold downloadPromptAsFile, bind, date_toISOString, click_download.
  eexists. split; [reflexivity|]. cbn.
  rewrite Hnow, before_T_date by exact Hdate. repeat split.
Qed.

Lemma downloadPromptAsFile_offers_dated_file_witness :
  now_iso Samples.quiet_world = "2026-01-02" ++ "T" ++ "10:15:30.000Z"
  /\ exists w',
       downloadPromptAsFile readme_spec Samples.quiet_world = (Returned tt, w')
       /\ downloads w'
          = (downloads Samples.quiet_world
             ++ [(("devdraft-spec-" ++ "2026-01-02" ++ ".md")%string,
                  generateDetailedPrompt readme_spec)])%list
       /\ clipboard w' = clipboard Samples.quiet_world
       /\ opened w' = opened Samples.quiet_world
       /\ console w' = console Samples.quiet_world
       /\ now_iso w' = now_iso Samples.quiet_world.
Proof.
  split; [reflexivity|].
  apply (downloadPromptAsFile_offers_dated_file
           readme_spec Samples.quiet_world "2026-01-02" "10:15:30.000Z");
    [reflexivity|].
  intros n. do 11 (destruct n as [|n]; [discriminate|]). discriminate.
Defined.

End PromptGeneratorMore.

(** ** Slices *)

Lemma substring_skip (s : string) :
  forall k m, String.length s - k <= m -> substring k m s = skip k s.
Proof.
  induction s as [|c s IH]; intros k m H.
  - destruct k, m; reflexivity.
  - destruct k as [|k].
    + destruct m as [|m]; cbn in H; [lia|].
      cbn. f_equal. rewrite IH by (cbn; lia). reflexivity.
    + cbn. apply IH. cbn in H. exact H.
Qed.

Lemma slice_last_skip (n : nat) (s : string) :
  slice_last n s = skip (String.length s - n) s.
Proof.
  unfold slice_last. apply substring_skip. lia.
Qed.

Lemma skip_length (s : string) :
  forall k, String.length (skip k s) = String.length s - k.
Proof.
  induction s as [|c s IH]; intros [|k]; cbn; auto.
Qed.

Lemma skip_append (pre s : string) (k : nat) :
  skip (String.length pre + k) (pre ++ s) = skip k s.
Proof.
  induction pre as [|c pre IH]; cbn; [reflexivity | exact IH].
Qed.

Lemma skip_split (s : string) :
  forall k, k <= String.length s ->
  exists pre, s = pre ++ skip k s /\ String.length pre = k.
Proof.
  induction s as [|c s IH]; intros k H.
  - exists "". cbn in H. assert (k = 0) by lia. subst k. split; reflexivity.
  - destruct k as [|k].
    + exists "". split; reflexivity.
    + destruct (IH k) as [pre [E L]]; [cbn in H; lia|].
      exists (String c pre). cbn. split; [now rewrite <- E | now rewrite L].
Qed.

Lemma slice_last_length (n : nat) (s : string) :
  String.length (slice_last n s) = Nat.min n (String.length s).
Proof.
  rewrite slice_last_skip, skip_length. lia.
Qed.

(** Slicing the tail, appending and slicing again is slicing once. *)
Lemma slice_last_append (n : nat) (a x : string) :
  slice_last n (slice_last n a ++ x) = slice_last n (a ++ x).
Proof.
  rewrite !slice_last_skip.
  destruct (skip_split a (String.length a - n)) as [pre [E L]]; [lia|].
  remember (skip (String.length a - n) a) as a' eqn:Ea.
  assert (La : String.length a' = String.length a - (String.length a - n))
    by (subst a'; apply skip_length).
  assert (Eax : a ++ x = pre ++ a' ++ x)
    by (rewrite <- append_assoc, <- E; reflexivity).
  rewrite !length_append, Eax.
  destruct (Nat.le_gt_cases (String.length a) n) as [Hle|Hgt].
  - assert (String.length pre = 0) by lia.
    destruct pre; [| discriminate]. cbn [append].
    replace (String.length a') with (String.length a) by lia. reflexivity.
  - replace (String.length a' + String.length x - n) with (String.length x) by lia.
    replace (String.length a + String.length x - n)
      with (String.length pre + String.length x) by lia.
    now rewrite skip_append.
Qed.

Module SidePanelMore.
Import SidePanel SidePanelUI.

(** ** What [stopCapture] and [startCapture] leave alone *)

Lemma panel_startCapture_catch_cells (s : State) :
  transcript (startCapture_catch s) = transcript s
  /\ wordCountProgress (startCapture_catch s) = wordCountProgress s
  /\ status (startCapture_catch s) = Error.
Proof.
  unfold startCapture_catch.
  destruct (recorder_running (mediaRecorderRef s)); cbn;
    destruct (socketRef s); cbn; auto.
Qed.

Lemma panel_startCapture_transcript (env : CaptureEnv) (s : State) :
  transcript (startCapture env s)
  = if begins_session env s then "" else transcript s.
Proof.
  unfold startCapture, begins_session.
  destruct (displayMedia env) as [[m [|]]|]; cbn [negb];
    [| reflexivity | now rewrite (proj1 (panel_startCapture_catch_cells _))].
  change (socketRef (setStatus Connected s)) with (socketRef s).
  destruct (is_open (socketRef s)); cbn [orb].
  - destruct (recorderStarts env);
      rewrite ?(proj1 (panel_startCapture_catch_cells _)); reflexivity.
  - destruct (backend env).
    + destruct (recorderStarts env);
        rewrite ?(proj1 (panel_startCapture_catch_cells _)); reflexivity.
    + destruct (ConnStatus_eqb (status s) Disconnected);
        rewrite ?(proj1 (panel_startCapture_catch_cells _)); reflexivity.
Qed.

Lemma panel_stopCapture_cells (stream0 : option MediaStream) (s : State) :
  sent (stopCapture stream0 s)
  = (if is_open (socketRef s) then sent s ++ [stop_capture] else sent s)%list
  /\ socketRef (stopCapture stream0 s) = socketRef s
  /\ transcript (stopCapture stream0 s) = transcript s
  /\ _fullTranscript (stopCapture stream0 s) = _fullTranscript s.
Proof.
  unfold stopCapture.
  destruct (mediaRecorderRef s) as [[| |]|] eqn:Er; cbn;
    destruct stream0; cbn;
    destruct (socketRef s) as [[| | |]|] eqn:Ek; cbn;
    rewrite ?Er, ?Ek; repeat split.
Qed.

(** X5.  [stopCapture] ends the recording and nothing else: the status becomes
    Disconnected, the recorder no longer runs and [stop_capture] is sent
    exactly when the socket is open.  The stream cell is cleared when the
    closure that runs saw a stream; when it saw none, as the closure kept by
    the [onended] handler does, the cell stays as it is.  The socket is not
    closed, and the transcripts, the word counter, the build status and the
    specification are left alone. *)
Theorem stopCapture_only_stops (stream0 : option MediaStream) (s : State) :
  status (stopCapture stream0 s) = Disconnected
  /\ stream (stopCapture stream0 s)
     = match stream0 with
       | Some _ => None
       | None => stream s
       end
  /\ recorder_running (mediaRecorderRef (stopCapture stream0 s)) = false
  /\ sent (stopCapture stream0 s)
     = (if is_open (socketRef s) then sent s ++ [stop_capture] else sent s)%list
  /\ socketRef (stopCapture stream0 s) = socketRef s
  /\ transcript (stopCapture stream0 s) = transcript s
  /\ _fullTranscript (stopCapture stream0 s) = _fullTranscript s
  /\ wordCountProgress (stopCapture stream0 s) = wordCountProgress s
  /\ buildStatus (stopCapture stream0 s) = buildStatus s
  /\ projectSpec (stopCapture stream0 s) = projectSpec s.
Proof.
  unfold stopCapture.
  destruct (mediaRecorderRef s) as [[| |]|] eqn:Er; cbn;
    destruct stream0; cbn;
    destruct (socketRef s) as [[| | |]|] eqn:Ek; cbn;
    rewrite ?Er, ?Ek; repeat split.
Qed.

Lemma panel_startCapture_open_socket
    (env : CaptureEnv) (s : State) (m : MediaStream) :
  displayMedia env = Some (m, true) ->
  recorderStarts env = true ->
  socketRef s = Some OPEN ->
  sent (startCapture env s) = (sent s ++ [start_capture])%list
  /\ socketRef (startCapture env s) = Some OPEN
  /\ status (startCapture env s) = Recording
  /\ stream (startCapture env s) = Some m
  /\ transcript (startCapture env s) = ""
  /\ _fullTranscript (startCapture env s) = ""
  /\ wordCountProgress (startCapture env s) = 0
  /\ projectSpec (startCapture env s) = None.
Proof.
  intros Hm Hr Hs. unfold startCapture. rewrite Hm. cbn. rewrite Hs. cbn.
  rewrite Hr. cbn. rewrite ?Hs. repeat split.
Qed.

(** X6.  Since [stopCapture] keeps the socket, a capture started next reuses it:
    whatever a new connection attempt would give, the session begins, the
    socket receives [stop_capture] then [start_capture], and the panel
    records again from an empty transcript with no specification. *)
Theorem restart_reuses_open_socket
    (env : CaptureEnv) (stream0 : option MediaStream) (s : State)
    (m : MediaStream) :
  displayMedia env = Some (m, true) ->
  recorderStarts env = true ->
  socketRef s = Some OPEN ->
  let s2 := startCapture env (stopCapture stream0 s) in
  sent s2 = (sent s ++ [stop_capture; start_capture])%list
  /\ socketRef s2 = Some OPEN
  /\ status s2 = Recording
  /\ stream s2 = Some m
  /\ transcript s2 = ""
  /\ _fullTranscript s2 = ""
  /\ wordCountProgress s2 = 0
  /\ projectSpec s2 = None.
Proof.
  intros Hm Hr Hs s2. subst s2.
  destruct (panel_stopCapture_cells stream0 s) as (Hsent & Hsock & _).
  rewrite Hs in Hsent, Hsock. cbn [is_open] in Hsent.
  destruct (panel_startCapture_open_socket env (stopCapture stream0 s) m
              Hm Hr Hsock)
    as (H1 & H2).
  split; [| exact H2].
  now rewrite H1, Hsent, <- app_assoc.
Qed.

Lemma restart_reuses_open_socket_witness :
  let s := run initial Samples.short_session in
  let s2 := startCapture Samples.offline_env (stopCapture (stream s) s) in
  backend Samples.offline_env = connect_failed
  /\ socketRef s = Some OPEN
  /\ sent s2 = (sent s ++ [stop_capture; start_capture])%list
  /\ socketRef s2 = Some OPEN
  /\ status s2 = Recording
  /\ stream s2 = Some 2
  /\ transcript s2 = ""
  /\ _fullTranscript s2 = ""
  /\ wordCountProgress s2 = 0
  /\ projectSpec s2 = None.
Proof.
  intros s s2. split; [reflexivity|]. split; [reflexivity|].
  apply (restart_reuses_open_socket Samples.offline_env (stream s) s 2);
    reflexivity.
Defined.

(** ** The transcript on display *)

Lemma panel_step_transcript_view (s : State) (e : Event) :
  transcript s = slice_last 300 (_fullTranscript s) ->
  transcript (step s e) = slice_last 300 (_fullTranscript (step s e)).
Proof.
  intros H. destruct e as [m| |st0|env|sm0|text]; cbn [step].
  - destruct m as [[d|c|d|t]|]; try exact H.
    cbn. rewrite H. apply slice_last_append.
  - exact H.
  - unfold onerror. now destruct (ConnStatus_eqb st0 Disconnected).
  - rewrite panel_startCapture_transcript,
      (proj2 (SidePanelSpec.panel_startCapture_resets env s)).
    now destruct (begins_session env s).
  - destruct (panel_stopCapture_cells sm0 s) as (_ & _ & Ht & Hf).
    now rewrite Ht, Hf.
  - exact H.
Qed.

(** X7.  Whatever happens after the panel is mounted, the transcript on display
    is the last 300 code units of the full transcript (all of it when it is
    shorter), so it never exceeds 300 code units. *)
Theorem transcript_is_tail_of_fullTranscript (es : list Event) :
  transcript (run initial es)
  = slice_last 300 (_fullTranscript (run initial es))
  /\ String.length (transcript (run initial es))
     = Nat.min 300 (String.length (_fullTranscript (run initial es)))
  /\ String.length (transcript (run initial es)) <= 300.
Proof.
  assert (H : forall s,
             transcript s = slice_last 300 (_fullTranscript s) ->
             transcript (run s es) = slice_last 300 (_fullTranscript (run s es))).
  { induction es as [|e es IH]; intros s Hs; [exact Hs|].
    cbn [run fold_left]. apply IH. now apply panel_step_transcript_view. }
  specialize (H initial eq_refl).
  split; [exact H|]. rewrite H, slice_last_length. split; [reflexivity | lia].
Qed.

(** ** The build and download buttons *)

Lemma handleBuildProject_aux
    (selectedTool : AgenticTool) (s : State) (w : World) (p : ProjectSpec) :
  projectSpec s = Some p ->
  clipboard_fault w = None ->
  exists s' w',
    handleBuildProject selectedTool s w = (Returned s', w')
    /\ clipboard w'
       = Some (PromptGenerator.generateSuperPrompt (specWithTranscript p s)).
Proof.
  intros Hp Hw. unfold handleBuildProject. rewrite Hp.
  unfold PromptGenerator.copyToClipboardAndRedirect, try_catch, bind,
    clipboard_writeText, window_open, console_error, ret.
  rewrite Hw. cbn. do 2 eexists. split; reflexivity.
Qed.

(** X8.  [handleBuildProject] never throws and leaves every cell but
    [buildStatus] alone.  Without a specification it does nothing at all.
    With one, a working clipboard receives the basic prompt of the
    specification extended with the full transcript, the page of the
    selected tool is opened and the status names the tool; a failing
    clipboard leaves clipboard and pages as they were and the status is the
    fixed failure message. *)
Theorem handleBuildProject_copies_prompt
    (selectedTool : AgenticTool) (s : State) (w : World) :
  exists s' w',
    handleBuildProject selectedTool s w = (Returned s', w')
    /\ setBuildStatus (buildStatus s) s' = s
    /\ match projectSpec s with
       | None => s' = s /\ w' = w
       | Some p =>
           match clipboard_fault w with
           | None =>
               clipboard w'
               = Some (PromptGenerator.generateSuperPrompt (specWithTranscript p s))
               /\ opened w'
                  = (opened w
                     ++ [(PromptGenerator.TOOL_URLS selectedTool, "_blank")])%list
               /\ buildStatus s'
                  = "Prompt copied! Opening "
                    ++ PromptGenerator.TOOL_NAMES selectedTool ++ "..."
           | Some _ =>
               clipboard w' = clipboard w
               /\ opened w' = opened w
               /\ buildStatus s'
                  = "Failed to copy to clipboard. Please try again."
           end
       end.
Proof.
  unfold handleBuildProject.
  destruct (projectSpec s) as [p|] eqn:Ep.
  - unfold PromptGenerator.copyToClipboardAndRedirect, try_catch, bind,
      clipboard_writeText, window_open, console_error, ret.
    destruct (clipboard_fault w) as [e|] eqn:E; cbn; rewrite ?E;
      do 2 eexists; (split; [reflexivity|]); cbn; rewrite ?E;
      (split; [now destruct s|]); repeat split.
  - exists s, w. split; [reflexivity|]. split; [now destruct s | split; reflexivity].
Qed.

Lemma spaced_cons_truthy (c : string) (cs : list string) :
  truthy (Some (spaced (c :: cs))) = Some (" " ++ join " " (c :: cs)).
Proof.
  rewrite spaced_join. reflexivity.
Qed.

(** X9.  After any events, when a specification is on display and at least one
    transcript chunk arrived in the session, the prompt that a working
    clipboard receives from the build button ends with the Raw Transcript
    Reference section holding a blank and the chunks of the session joined
    by blanks. *)
Theorem built_prompt_ends_with_session_transcript
    (es : list Event) (p : ProjectSpec) (c : string) (cs : list string)
    (selectedTool : AgenticTool) (w : World) :
  projectSpec (run initial es) = Some p ->
  chunks_since_start initial es [] = c :: cs ->
  clipboard_fault w = None ->
  exists base s' w',
    handleBuildProject selectedTool (run initial es) w = (Returned s', w')
    /\ clipboard w'
       = Some (base ++ PromptGenerator.transcript_section
                         (" " ++ join " " (c :: cs))).
Proof.
  intros Hp Hc Hw.
  pose proof (SidePanelSpec.panel_run_fullTranscript es initial [] eq_refl) as Hf.
  rewrite Hc in Hf.
  destruct (PromptGeneratorSpec.generateSuperPrompt_transcript
              (specWithTranscript p (run initial es))
              (" " ++ join " " (c :: cs))) as [base Hbase].
  { cbn [specWithTranscript raw_transcript_snapshot]. rewrite Hf.
    apply spaced_cons_truthy. }
  destruct (handleBuildProject_aux selectedTool (run initial es) w p Hp Hw)
    as (s' & w' & Hrun & Hclip).
  exists base, s', w'. split; [exact Hrun|]. now rewrite Hclip, Hbase.
Qed.

Lemma built_prompt_ends_with_session_transcript_witness :
  projectSpec (run initial Samples.short_session)
  = Some PromptGenerator.readme_spec
  /\ chunks_since_start initial Samples.short_session []
     = ["we need a dashboard"; "for crypto tracking"]
  /\ clipboard_fault Samples.quiet_world = None
  /\ exists base s' w',
       handleBuildProject bolt (run initial Samples.short_session)
                          Samples.quiet_world
       = (Returned s', w')
       /\ clipboard w'
          = Some (base ++ PromptGenerator.transcript_section
                            (" " ++ join " " ["we need a dashboard";
                                              "for crypto tracking"])).
Proof.
  split; [reflexivity|]. split; [reflexivity|]. split; [reflexivity|].
  apply (built_prompt_ends_with_session_transcript
           Samples.short_session PromptGenerator.readme_spec
           "we need a dashboard" ["for crypto tracking"] bolt
           Samples.quiet_world); reflexivity.
Defined.

Lemma generateDetailedPrompt_two_sections (spec : ProjectSpec) (t : string) :
  truthy (raw_transcript_snapshot spec) = Some t ->
  2 <= PromptGenerator.occurrences
         (PromptGenerator.transcript_section t)
         (PromptGenerator.generateDetailedPrompt spec).
Proof.
  intros Ht.
  destruct (PromptGeneratorSpec.generateSuperPrompt_transcript spec t Ht)
    as [base Hbase].
  rewrite PromptGeneratorMore.generateDetailedPrompt_added, Ht, Hbase.
  destruct (PromptGeneratorSpec.transcript_section_nonempty t) as [x [q ->]].
  rewrite !append_assoc.
  set (hist := if (0 <? List.length (filter is_superseded (requirements spec)))%nat
               then _ else _).
  rewrite <- (append_assoc hist nl).
  apply PromptGeneratorSpec.occurrences_twice.
Qed.

(** X10.  [handleDownload] never throws.  Without a specification it offers no
    file; with one it offers exactly one, whose content is the detailed
    prompt of the specification extended with the full transcript, and in
    which, as soon as the full transcript is not empty, the Raw Transcript
    Reference section occurs twice. *)
Theorem handleDownload_offers_detailed_prompt (s : State) (w : World) :
  exists w',
    handleDownload s w = (Returned tt, w')
    /\ match projectSpec s with
       | None => w' = w
       | Some p =>
           let content :=
             PromptGenerator.generateDetailedPrompt (specWithTranscript p s) in
           (exists name, downloads w' = (downloads w ++ [(name, content)])%list)
           /\ clipboard w' = clipboard w
           /\ opened w' = opened w
           /\ (_fullTranscript s <> "" ->
               2 <= PromptGenerator.occurrences
                      (PromptGenerator.transcript_section (_fullTranscript s))
                      content)
       end.
Proof.
  unfold handleDownload. destruct (projectSpec s) as [p|].
  - unfold PromptGenerator.downloadPromptAsFile, bind, date_toISOString,
      click_download.
    eexists. split; [reflexivity|]. cbn.
    split; [eexists; reflexivity|]. split; [reflexivity|]. split; [reflexivity|].
    intros Hne. apply generateDetailedPrompt_two_sections.
    cbn. now apply PromptGeneratorSpec.truthy_nonempty.
  - exists w. split; reflexivity.
Qed.

(** ** The capture button after [startCapture] *)

(** X11.  After [startCapture] the footer shows End Session exactly when the
    session began and the recorder started.  It shows an enabled Start
    Capture only when the shared stream had no audio track.  In every other
    outcome (the picker was dismissed, the backend could not be reached or
    never answered, the recorder could not be created) Start Capture is
    shown disabled. *)
Theorem footer_after_startCapture (env : CaptureEnv) (s : State) :
  footer (startCapture env s)
  = match displayMedia env with
    | None => StartCapture true
    | Some (_, false) => StartCapture false
    | Some (_, true) =>
        if begins_session env s && recorderStarts env
        then EndSession
        else StartCapture true
    end.
Proof.
  unfold footer, startCapture, begins_session.
  destruct (displayMedia env) as [[m [|]]|]; cbn [negb];
    [| reflexivity
     | now rewrite (proj2 (proj2 (panel_startCapture_catch_cells _)))].
  change (socketRef (setStatus Connected s)) with (socketRef s).
  destruct (is_open (socketRef s)); cbn [orb andb].
  - destruct (recorderStarts env);
      rewrite ?(proj2 (proj2 (panel_startCapture_catch_cells _))); reflexivity.
  - destruct (backend env); cbn [andb].
    + destruct (recorderStarts env);
        rewrite ?(proj2 (proj2 (panel_startCapture_catch_cells _))); reflexivity.
    + destruct (ConnStatus_eqb (status s) Disconnected);
        rewrite ?(proj2 (proj2 (panel_startCapture_catch_cells _))); reflexivity.
Qed.

(** X12.  While the footer shows a disabled Start Capture, nothing the user can
    press changes that: after any sequence of presses the status is the same
    and the button is still disabled.  The closing of the socket is what
    enables it again. *)
Theorem disabled_start_stays_disabled (s : State) (es : list Event) :
  footer s = StartCapture true ->
  pressed s es = true ->
  status (run s es) = status s
  /\ footer (run s es) = StartCapture true
  /\ (forall env, pressable (run s es) (ev_startCapture env) = false)
  /\ footer (onclose (run s es)) = StartCapture false.
Proof.
  revert s. induction es as [|e es IH]; intros s Hf Hp.
  - repeat split; [exact Hf|]. intros env. cbn. now rewrite Hf.
  - cbn [pressed] in Hp. apply andb_true_iff in Hp. destruct Hp as [He Hp].
    destruct e as [m| |st0|env|sm0|text]; cbn [pressable] in He;
      rewrite ?Hf in He; try discriminate He.
    cbn [run fold_left step].
    destruct (IH (setBuildStatus text s) Hf Hp) as (H1 & H2 & H3 & H4).
    repeat split; assumption.
Qed.

Lemma disabled_start_stays_disabled_witness :
  let s := startCapture (mkCaptureEnv None connect_opened true) initial in
  let es := [ev_buildStatus "Generating code with AI..."; ev_buildStatus ""] in
  footer s = StartCapture true
  /\ pressed s es = true
  /\ status (run s es) = status s
  /\ footer (run s es) = StartCapture true
  /\ (forall env, pressable (run s es) (ev_startCapture env) = false)
  /\ footer (onclose (run s es)) = StartCapture false.
Proof.
  intros s es. split; [reflexivity|]. split; [reflexivity|].
  apply (disabled_start_stays_disabled s es); reflexivity.
Defined.

(** ** The pulse of new requirements *)

Lemma In_Set_of (l : list nat) (x : nat) : In x (Set_of l) <-> In x l.
Proof.
  induction l as [|y l IH]; cbn; [tauto|].
  rewrite filter_In, IH. split.
  - intros [H|[H _]]; auto.
  - intros [H|H]; [now left|].
    destruct (Nat.eq_dec y x) as [E|N]; [now left|].
    right. split; [exact H|]. apply negb_true_iff, Nat.eqb_neq. congruence.
Qed.

Lemma NoDup_Set_of (l : list nat) : NoDup (Set_of l).
Proof.
  induction l as [|y l IH]; cbn; constructor.
  - rewrite filter_In. intros [_ H].
    apply negb_true_iff, Nat.eqb_neq in H. congruence.
  - now apply NoDup_filter.
Qed.

Lemma has_In (set : list nat) (x : nat) : has set x = true <-> In x set.
Proof.
  unfold has. rewrite existsb_exists. split.
  - intros [y [Hy E]]. apply Nat.eqb_eq in E. now subst.
  - intros H. exists x. split; [exact H | apply Nat.eqb_refl].
Qed.

Lemma newIds_In (spec previous : ProjectSpec) (i : nat) :
  In i (map id (filter (fun r => negb (has (Set_of (map id (requirements previous)))
                                            (id r)))
                       (requirements spec)))
  <-> In i (map id (requirements spec))
      /\ ~ In i (map id (requirements previous)).
Proof.
  split.
  - intros H. apply in_map_iff in H. destruct H as [r [<- Hr]].
    apply filter_In in Hr. destruct Hr as [Hr Hn].
    split; [now apply in_map|]. intros Hin.
    apply negb_true_iff in Hn.
    assert (has (Set_of (map id (requirements previous))) (id r) = true)
      by (apply has_In, In_Set_of; exact Hin).
    congruence.
  - intros [H Hn]. apply in_map_iff in H. destruct H as [r [<- Hr]].
    apply in_map_iff. exists r. split; [reflexivity|].
    apply filter_In. split; [exact Hr|].
    apply negb_true_iff.
    destruct (has (Set_of (map id (requirements previous))) (id r)) eqn:E;
      [| reflexivity].
    apply (proj1 (has_In _ _)) in E. apply (proj1 (In_Set_of _ _)) in E.
    now elim Hn.
Qed.

(** X13.  The effect remembers the specification it ran with.  It marks
    requirements as new only when a specification replaces an earlier one,
    never for the first specification of a session; the marked identifiers
    are then exactly those of the new specification that the earlier one did
    not have, each once; and when there is none (the same specification
    again, or requirements that merely changed status) the marks are left as
    they were. *)
Theorem trackNewRequirements_marks_added_ids
    (projectSpec : option ProjectSpec) (t : Pulse) :
  previousSpecRef (trackNewRequirements projectSpec t) = projectSpec
  /\ match projectSpec, previousSpecRef t with
     | Some spec, Some previous =>
         let added i :=
           In i (map id (requirements spec))
           /\ ~ In i (map id (requirements previous)) in
         ((exists i, added i) ->
          (forall i, In i (newRequirementIds (trackNewRequirements projectSpec t))
                     <-> added i)
          /\ NoDup (newRequirementIds (trackNewRequirements projectSpec t)))
         /\ ((forall i, ~ added i) ->
             newRequirementIds (trackNewRequirements projectSpec t)
             = newRequirementIds t)
     | _, _ =>
         newRequirementIds (trackNewRequirements projectSpec t)
         = newRequirementIds t
     end.
Proof.
  split; [reflexivity|].
  unfold trackNewRequirements.
  destruct projectSpec as [spec|]; [| reflexivity].
  destruct (previousSpecRef t) as [previous|] eqn:Ep; [| reflexivity].
  set (newIds := map id (filter _ (requirements spec))).
  assert (Hnew : forall i, In i newIds
                           <-> In i (map id (requirements spec))
                               /\ ~ In i (map id (requirements previous)))
    by (intros i; apply newIds_In).
  cbv zeta. split.
  - intros [i Hi]. apply Hnew in Hi.
    destruct newIds as [|x l] eqn:E; [destruct Hi|]. cbn [List.length Nat.ltb Nat.leb].
    cbn [newRequirementIds]. split; [| apply NoDup_Set_of].
    intros j. rewrite In_Set_of. apply Hnew.
  - intros Hnone. destruct newIds as [|x l] eqn:E; [reflexivity|].
    exfalso. apply (Hnone x), Hnew. now left.
Qed.

End SidePanelMore.

Module CodeGenerationMore.
Import CodeGeneration.

(** ** Lines of a stream *)

Lemma split_nl_nonempty (s : string) : split_nl s <> [].
Proof.
  destruct s as [|c s]; cbn [split_nl]; [congruence|].
  destruct (Ascii.eqb c (ascii_of_nat 10)); [congruence|].
  destruct (split_nl s); congruence.
Qed.

Lemma split_nl_append (a b : string) :
  split_nl (a ++ b)
  = (removelast (split_nl a) ++ split_nl (last (split_nl a) "" ++ b))%list.
Proof.
  induction a as [|c a IH]; [reflexivity|].
  cbn [append split_nl].
  pose proof (split_nl_nonempty a) as Hne.
  destruct (Ascii.eqb c (ascii_of_nat 10)) eqn:Ec.
  - rewrite IH. destruct (split_nl a) as [|x xs]; [now elim Hne|]. reflexivity.
  - rewrite IH. destruct (split_nl a) as [|x xs]; [now elim Hne|].
    destruct xs as [|x2 xs].
    + cbn [removelast last app append split_nl]. now rewrite Ec.
    + reflexivity.
Qed.

(** The text after the last line feed holds no line feed. *)
Lemma split_nl_last (s : string) :
  split_nl (last (split_nl s) "") = [last (split_nl s) ""].
Proof.
  induction s as [|c s IH]; [reflexivity|].
  cbn [split_nl]. pose proof (split_nl_nonempty s) as Hne.
  destruct (Ascii.eqb c (ascii_of_nat 10)) eqn:Ec.
  - destruct (split_nl s) as [|x xs]; [now elim Hne | exact IH].
  - destruct (split_nl s) as [|x xs]; [now elim Hne|].
    destruct xs as [|x2 xs].
    + cbn [last] in *. cbn [split_nl]. rewrite Ec, IH. reflexivity.
    + exact IH.
Qed.

Lemma split_nl_no_line_feed (s : string) :
  (forall n, get n s <> Some (ascii_of_nat 10)) -> split_nl s = [s].
Proof.
  induction s as [|c s IH]; intros H; [reflexivity|].
  cbn [split_nl]. destruct (Ascii.eqb c (ascii_of_nat 10)) eqn:Ec.
  - apply Ascii.eqb_eq in Ec. subst c. now elim (H 0).
  - rewrite IH; [reflexivity|]. intros n. exact (H (S n)).
Qed.

Lemma last_app_nonempty {A} (l1 l2 : list A) (d : A) :
  l2 <> [] -> last (l1 ++ l2)%list d = last l2 d.
Proof.
  intros H. induction l1 as [|x l1 IH]; [reflexivity|].
  cbn [app last]. destruct (l1 ++ l2)%list eqn:E; [| exact IH].
  apply app_eq_nil in E. destruct E as [_ E]. contradiction.
Qed.

Section Reader.

Variable blank : string -> bool.
Variable JSON_parse : string -> option GenMessage.

Local Abbreviation process := (process_line blank JSON_parse).
Local Abbreviation chunk_step := (read_chunk blank JSON_parse).

(** The loop over the chunks handles the complete lines of the buffered
    text followed by the chunks, and keeps the rest in the buffer. *)
Lemma read_chunks (chunks : list string) :
  forall (buffer : string) (g : Gen),
    split_nl buffer = [buffer] ->
    fold_left chunk_step chunks (buffer, g)
    = (last (split_nl (buffer ++ String.concat "" chunks)) "",
       fold_left process
                 (complete_lines (buffer ++ String.concat "" chunks)) g).
Proof.
  induction chunks as [|c chunks IH]; intros buffer g Hb.
  - cbn. unfold complete_lines. rewrite append_nil_r, Hb. reflexivity.
  - cbn [fold_left]. unfold read_chunk at 2.
    rewrite IH by apply split_nl_last.
    assert (E : buffer ++ String.concat "" (c :: chunks)
                = (buffer ++ c) ++ String.concat "" chunks).
    { rewrite append_assoc. f_equal.
      destruct chunks; cbn; [now rewrite append_nil_r | reflexivity]. }
    unfold complete_lines.
    rewrite E, (split_nl_append (buffer ++ c) (String.concat "" chunks)).
    pose proof (split_nl_nonempty
                  (last (split_nl (buffer ++ c)) "" ++ String.concat "" chunks))
      as Hne.
    unfold complete_lines.
    rewrite last_app_nonempty by exact Hne.
    rewrite removelast_app by exact Hne.
    now rewrite fold_left_app.
Qed.

Lemma handleGenerateCode_body (spec : ProjectSpec) (chunks : list string)
    (ending : StreamEnd) (g : Gen) :
  handleGenerateCode blank JSON_parse (Some spec) (body chunks ending) g
  = setIsGenerating false
      (match ending with
       | stream_done => fun g' => g'
       | read_rejects => generation_failed
       end
         (fold_left process (complete_lines (String.concat "" chunks))
                    (setBuildStatus "Generating code with AI..."
                                    (setIsGenerating true g)))).
Proof.
  unfold handleGenerateCode.
  rewrite (read_chunks chunks "" _ eq_refl). cbn [append].
  now destruct ending.
Qed.

(** X14.  The answer is read line by line whatever way the network cuts it: the
    messages handled are the lines of the whole stream that end with a line
    feed, in order, so two streams with the same text give the same
    result. *)
Theorem handleGenerateCode_ignores_chunk_boundaries
    (spec : ProjectSpec) (chunks : list string) (ending : StreamEnd) (g : Gen) :
  handleGenerateCode blank JSON_parse (Some spec) (body chunks ending) g
  = setIsGenerating false
      (match ending with
       | stream_done => fun g' => g'
       | read_rejects => generation_failed
       end
         (fold_left process (complete_lines (String.concat "" chunks))
                    (setBuildStatus "Generating code with AI..."
                                    (setIsGenerating true g))))
  /\ (forall chunks',
        String.concat "" chunks' = String.concat "" chunks ->
        handleGenerateCode blank JSON_parse (Some spec) (body chunks' ending) g
        = handleGenerateCode blank JSON_parse (Some spec) (body chunks ending) g).
Proof.
  split; [apply handleGenerateCode_body|].
  intros chunks' E. now rewrite !handleGenerateCode_body, E.
Qed.

Lemma split_nl_append_no_line_feed (a b : string) :
  split_nl a = [a] -> split_nl b = [b] -> split_nl (a ++ b) = [a ++ b].
Proof.
  induction a as [|c a IH]; intros Ha Hb; [exact Hb|].
  cbn [append split_nl] in *.
  destruct (Ascii.eqb c (ascii_of_nat 10)); [discriminate Ha|].
  pose proof (split_nl_nonempty a) as Hne.
  destruct (split_nl a) as [|x xs]; [now elim Hne|].
  inversion Ha; subst. now rewrite IH.
Qed.

Lemma complete_lines_tail (text tail : string) :
  split_nl tail = [tail] ->
  complete_lines (text ++ tail) = complete_lines text.
Proof.
  intros Ht. unfold complete_lines.
  rewrite split_nl_append.
  rewrite (split_nl_append_no_line_feed _ tail (split_nl_last text) Ht).
  apply removelast_last.
Qed.

(** X15.  Text after the last line feed of the stream is never handled: a final
    message that the backend does not end with a line feed is lost, and a
    stream that holds no line feed at all leaves the status at its initial
    text. *)
Theorem handleGenerateCode_drops_unterminated_tail
    (spec : ProjectSpec) (text tail : string) (ending : StreamEnd) (g : Gen) :
  (forall n, get n tail <> Some (ascii_of_nat 10)) ->
  handleGenerateCode blank JSON_parse (Some spec) (body [text ++ tail] ending) g
  = handleGenerateCode blank JSON_parse (Some spec) (body [text] ending) g
  /\ handleGenerateCode blank JSON_parse (Some spec) (body [tail] stream_done) g
     = mkGen "Generating code with AI..." (generatedCode g) false.
Proof.
  intros H. apply split_nl_no_line_feed in H.
  rewrite !handleGenerateCode_body. cbn [String.concat].
  rewrite complete_lines_tail by exact H. split; [reflexivity|].
  unfold complete_lines. rewrite H. reflexivity.
Qed.

(** X16.  [handleGenerateCode] does nothing without a specification.  With one,
    whatever the network does, it ends with [isGenerating] false; and when
    the request fails, the response has no body or the stream breaks, the
    status is the fixed failure message. *)
Theorem handleGenerateCode_always_finishes
    (projectSpec : option ProjectSpec) (response : Response) (g : Gen) :
  match projectSpec with
  | None => handleGenerateCode blank JSON_parse projectSpec response g = g
  | Some _ =>
      isGenerating (handleGenerateCode blank JSON_parse projectSpec response g)
      = false
      /\ match response with
         | body _ stream_done => True
         | _ =>
             buildStatus
               (handleGenerateCode blank JSON_parse projectSpec response g)
             = "Failed to generate code. Is the backend running?"
         end
  end.
Proof.
  destruct projectSpec as [spec|]; [| reflexivity].
  destruct response as [| |chunks ending]; [split; reflexivity ..|].
  rewrite handleGenerateCode_body. destruct ending; split; reflexivity || exact I.
Qed.

(** *** The preview is opened only for generated files *)

Lemma on_message_code (m : GenMessage) (g : Gen) (code : GeneratedCode) :
  generatedCode (on_message m g) = Some code ->
  generatedCode g = Some code
  \/ exists fs, files code = Some fs /\ fs <> [].
Proof.
  unfold on_message.
  destruct (status_is m "planning"); [now left|].
  destruct (status_is m "planning_complete"); [now left|].
  destruct (status_is m "building"); [now left|].
  destruct (status_is m "complete" || m_success m).
  - destruct (m_success m && has_files m) eqn:E; [| now left].
    cbn. intros H. inversion H; subst code. right.
    apply andb_true_iff in E. destruct E as [_ E]. unfold has_files in E.
    destruct (m_files m) as [fs|]; [| discriminate E].
    exists fs. split; [reflexivity|]. destruct fs; [discriminate E | discriminate].
  - destruct (status_is m "error"); now left.
Qed.

Lemma fold_process_code (lines : list string) :
  forall (g : Gen) (code : GeneratedCode),
    generatedCode (fold_left process lines g) = Some code ->
    generatedCode g = Some code
  \/ exists fs, files code = Some fs /\ fs <> [].
Proof.
  induction lines as [|l lines IH]; intros g code H; [now left|].
  cbn [fold_left] in H. apply IH in H. destruct H as [H|H]; [| now right].
  unfold process_line in H. destruct (blank l); [now left|].
  destruct (JSON_parse l) as [m|]; [| now left].
  now apply on_message_code in H.
Qed.

(** X17.  Whatever the stream holds, the code preview that [handleGenerateCode]
    leaves open is the one that was open before or one with at least one
    file: a message without files never opens it. *)
Theorem handleGenerateCode_preview_has_files
    (projectSpec : option ProjectSpec) (response : Response) (g : Gen)
    (code : GeneratedCode) :
  generatedCode (handleGenerateCode blank JSON_parse projectSpec response g)
  = Some code ->
  generatedCode g = Some code
  \/ exists fs, files code = Some fs /\ fs <> [].
Proof.
  destruct projectSpec as [spec|]; [| now left].
  destruct response as [| |chunks ending]; [now left | now left |].
  rewrite handleGenerateCode_body. intros H.
  assert (H' : generatedCode
                 (fold_left process (complete_lines (String.concat "" chunks))
                            (setBuildStatus "Generating code with AI..."
                                            (setIsGenerating true g)))
               = Some code) by (destruct ending; exact H).
  apply fold_process_code in H'. exact H'.
Qed.

End Reader.

Lemma handleGenerateCode_drops_unterminated_tail_witness :
  let run stream :=
    handleGenerateCode Samples.sample_blank Samples.sample_parse
                       (Some PromptGenerator.readme_spec)
                       (body [stream] stream_done) Samples.idle_gen in
  generatedCode (run (Samples.planning_line ++ nl ++ Samples.complete_line ++ nl))
  = Some (mkGeneratedCode
            None
            (Some [mkGeneratedFile "src/App.jsx" "export default App"])
            None None)
  /\ run ((Samples.planning_line ++ nl) ++ Samples.complete_line)
     = run (Samples.planning_line ++ nl)
  /\ run Samples.complete_line
     = mkGen "Generating code with AI..." None false.
Proof.
  intros run. split; [reflexivity|].
  apply (handleGenerateCode_drops_unterminated_tail
           Samples.sample_blank Samples.sample_parse
           PromptGenerator.readme_spec
           (Samples.planning_line ++ nl) Samples.complete_line
           stream_done Samples.idle_gen).
  intros n. do 100 (destruct n as [|n]; [discriminate|]). discriminate.
Defined.

Lemma handleGenerateCode_preview_has_files_witness :
  let code :=
    mkGeneratedCode
      None (Some [mkGeneratedFile "src/App.jsx" "export default App"])
      None None in
  let result :=
    handleGenerateCode Samples.sample_blank Samples.sample_parse
                       (Some PromptGenerator.readme_spec)
                       (body [Samples.planning_line; nl;
                              Samples.complete_line ++ nl] stream_done)
                       Samples.idle_gen in
  generatedCode result = Some code
  /\ (generatedCode Samples.idle_gen = Some code
      \/ exists fs, files code = Some fs /\ fs <> []).
Proof.
  intros code result. split; [reflexivity|].
  apply (handleGenerateCode_preview_has_files
           Samples.sample_blank Samples.sample_parse
           (Some PromptGenerator.readme_spec)
           (body [Samples.planning_line; nl; Samples.complete_line ++ nl]
                 stream_done)
           Samples.idle_gen code).
  reflexivity.
Defined.

End CodeGenerationMore.

Module CodePreviewMore.
Import CodeGeneration CodePreview.

(** ** Copying a generated file *)

Lemma copyFileToClipboard_result (text : string) (w : World) :
  exists w',
    copyFileToClipboard text w
    = (Returned (match clipboard_fault w with None => true | Some _ => false end),
       w')
    /\ clipboard w'
       = match clipboard_fault w with
         | None => Some text
         | Some _ => clipboard w
         end
    /\ opened w' = opened w
    /\ downloads w' = downloads w.
Proof.
  unfold copyFileToClipboard, try_catch, bind, clipboard_writeText,
    console_error, ret.
  destruct (clipboard_fault w) as [e|] eqn:E; cbn; rewrite ?E;
    eexists; (split; [reflexivity|]); cbn; repeat split.
Qed.

(** X18.  [handleCopy] on a file of the list never throws.  The file is marked as
    copied exactly when the clipboard write succeeds, and then the clipboard
    holds its content; when the write fails the mark and the clipboard stay
    as they were.  No page is opened and no file is offered. *)
Theorem handleCopy_marks_copied_file
    (files : list GeneratedFile) (index : nat) (file : GeneratedFile)
    (copiedIndex : option nat) (w : World) :
  nth_error files index = Some file ->
  exists mark w',
    handleCopy files index copiedIndex w = (Returned mark, w')
    /\ match clipboard_fault w with
       | None => mark = Some index /\ clipboard w' = Some (content file)
       | Some _ => mark = copiedIndex /\ clipboard w' = clipboard w
       end
    /\ opened w' = opened w
    /\ downloads w' = downloads w.
Proof.
  intros Hf. unfold handleCopy. rewrite Hf. unfold bind.
  destruct (copyFileToClipboard_result (content file) w)
    as (w' & E & Hc & Ho & Hd).
  rewrite E. destruct (clipboard_fault w); cbn;
    do 2 eexists; (split; [reflexivity|]); repeat split; assumption.
Qed.

Lemma handleCopy_marks_copied_file_witness :
  let files := [mkGeneratedFile "index.html" "<div id=root></div>";
                mkGeneratedFile "src/App.jsx" "export default App"] in
  nth_error files 1 = Some (mkGeneratedFile "src/App.jsx" "export default App")
  /\ exists mark w',
       handleCopy files 1 None Samples.quiet_world = (Returned mark, w')
       /\ (mark = Some 1 /\ clipboard w' = Some "export default App")
       /\ opened w' = opened Samples.quiet_world
       /\ downloads w' = downloads Samples.quiet_world.
Proof.
  intros files. split; [reflexivity|].
  apply (handleCopy_marks_copied_file
           files 1 (mkGeneratedFile "src/App.jsx" "export default App")
           None Samples.quiet_world).
  reflexivity.
Defined.

End CodePreviewMore.

Module RequirementLabelMore.
Import RequirementLabel.

(** ** The number shown for a requirement *)

Lemma read_String_of (n : nat) : read_label (String_of n) = Some n.
Proof.
  unfold read_label, String_of. rewrite NilEmpty.usu. cbn.
  now rewrite Unsigned.of_to.
Qed.

Lemma String_of_nonempty (n : nat) : String_of n <> "".
Proof.
  intros E. pose proof (read_String_of n) as H. rewrite E in H.
  cbn in H. inversion H; subst n. discriminate E.
Qed.

Lemma read_leading_zero (s : string) (n : nat) :
  read_label s = Some n -> read_label (String "0"%char s) = Some n.
Proof.
  unfold read_label. cbn [NilEmpty.uint_of_string].
  destruct (NilEmpty.uint_of_string s) as [d|]; [| discriminate].
  cbn. intros H. inversion H. reflexivity.
Qed.

Lemma req_id_shape (r : Requirement) :
  (req_id r = String_of (id r) /\ 2 <= String.length (String_of (id r)))
  \/ (req_id r = String "0"%char (String_of (id r))
      /\ String.length (String_of (id r)) = 1).
Proof.
  unfold req_id, padStart.
  pose proof (String_of_nonempty (id r)) as Hne.
  destruct (String_of (id r)) as [|c [|c2 rest]]; [now elim Hne | |].
  - right. split; reflexivity.
  - left. split; [reflexivity | cbn; lia].
Qed.

(** X19.  The label [String(req.id).padStart(2, '0')] has at least two characters,
    is the decimal writing of the identifier with at most one zero put in
    front, never a shortened one, and reads back as the identifier; so two
    requirements with the same label have the same identifier. *)
Theorem req_id_reads_back (r : Requirement) :
  2 <= String.length (req_id r)
  /\ (req_id r = String_of (id r) \/ req_id r = "0" ++ String_of (id r))
  /\ read_label (req_id r) = Some (id r)
  /\ (forall r', req_id r' = req_id r -> id r' = id r).
Proof.
  assert (Hread : forall q, read_label (req_id q) = Some (id q)).
  { intros q. destruct (req_id_shape q) as [[E _]|[E _]]; rewrite E.
    - apply read_String_of.
    - apply read_leading_zero, read_String_of. }
  split; [| split; [| split]].
  - destruct (req_id_shape r) as [[E L]|[E L]]; rewrite E; cbn; lia.
  - destruct (req_id_shape r) as [[E _]|[E _]]; [left | right]; exact E.
  - apply Hread.
  - intros r' E. pose proof (Hread r') as H. rewrite E, Hread in H.
    now inversion H.
Qed.

End RequirementLabelMore.

Module CorrespondenceMore.
Import Correspondence.

(** ** The two front ends side by side *)

Lemma shared_step (s : SidePanel.State) (e : SidePanel.Event) :
  Dashboard.step (shared s) (same_event e) = shared (SidePanel.step s e).
Proof.
  destruct s as [st sm tr ft ps bs wc mr sk se].
  destruct e as [[[d|c|d|t]|]| |st0|[dm bk rs]|sm0|text]; cbn [same_event];
    try reflexivity.
  - cbn [Dashboard.step SidePanel.step].
    unfold Dashboard.onerror, SidePanel.onerror.
    destruct (ConnStatus_eqb st0 Disconnected); reflexivity.
  - destruct dm as [[m [|]]|]; destruct mr as [[| |]|]; destruct sk as [[| | |]|];
      destruct bk; destruct rs; destruct st; reflexivity.
  - destruct mr as [[| |]|]; destruct sm0; destruct sk as [[| | |]|]; reflexivity.
Qed.

(** X20.  The landing page behaves as the side panel with the word counter
    taken away: fed the same events from the same shared cells, after every
    event its status, stream, transcripts, specification, build status,
    recorder, socket and sent commands are those of the side panel. *)
Theorem dashboard_follows_side_panel
    (s : SidePanel.State) (es : list SidePanel.Event) :
  Dashboard.run (shared s) (map same_event es) = shared (SidePanel.run s es)
  /\ Dashboard.run Dashboard.initial (map same_event es)
     = shared (SidePanel.run SidePanel.initial es).
Proof.
  assert (H : forall s0,
             Dashboard.run (shared s0) (map same_event es)
             = shared (SidePanel.run s0 es)).
  { induction es as [|e es IH]; intros s0; [reflexivity|].
    cbn [map Dashboard.run SidePanel.run fold_left].
    rewrite shared_step. apply IH. }
  split; [apply H | apply (H SidePanel.initial)].
Qed.

End CorrespondenceMore.
